(** * EduPath front end: session, dashboard and recommendation workflow

    A shallow embedding of [frontend/src/App.js].  React components are
    modelled as state records with one transition per event handler; every
    handler returns the new state together with the effects it issues
    (network requests, console output).  Promises are modelled by events of
    the environment: a request that was issued is answered later by a
    success or a failure event. *)

From Stdlib Require Import List Bool Arith NArith ZArith Lia.
From Stdlib Require Import Strings.String Strings.Ascii.
Import ListNotations.

(** ** JavaScript strings *)

Module JS.

(** A JavaScript string is a sequence of UTF-16 code units. *)
Definition code_unit := N.
Definition jsstring := list code_unit.

(** String literal of the source (ASCII only). *)
Fixpoint lit (s : string) : jsstring :=
  match s with
  | EmptyString => []
  | String a r => N_of_ascii a :: lit r
  end.

Definition eqb (a b : jsstring) : bool :=
  if list_eq_dec N.eq_dec a b then true else false.

(** Truthiness of a string: only the empty string is falsy. *)
Definition truthy (s : jsstring) : bool :=
  match s with
  | [] => false
  | _ :: _ => true
  end.

(** Code units removed by [String.prototype.trim]: ECMAScript WhiteSpace
    and LineTerminator. *)
Definition is_ws (c : code_unit) : bool :=
  ((c =? 9) || (c =? 10) || (c =? 11) || (c =? 12) || (c =? 13) ||
   (c =? 32) || (c =? 160) || (c =? 5760) ||
   ((8192 <=? c) && (c <=? 8202)) ||
   (c =? 8232) || (c =? 8233) || (c =? 8239) || (c =? 8287) ||
   (c =? 12288) || (c =? 65279))%N.

Fixpoint trimStart (s : jsstring) : jsstring :=
  match s with
  | [] => []
  | c :: r => if is_ws c then trimStart r else s
  end.

Definition trimEnd (s : jsstring) : jsstring :=
  rev (trimStart (rev s)).

Definition trim (s : jsstring) : jsstring :=
  trimEnd (trimStart s).

Definition comma : code_unit := 44%N.

(** [s.split(sep)] for a separator of one code unit: the segments between
    the occurrences of [sep]; the empty string gives one empty segment. *)
Fixpoint split (sep : code_unit) (s : jsstring) : list jsstring :=
  match s with
  | [] => [[]]
  | c :: r =>
      if (c =? sep)%N then [] :: split sep r
      else match split sep r with
           | [] => [[c]]
           | seg :: segs => (c :: seg) :: segs
           end
  end.

(** [segs.join(sep)]. *)
Fixpoint join (sep : code_unit) (segs : list jsstring) : jsstring :=
  match segs with
  | [] => []
  | [seg] => seg
  | seg :: rest => seg ++ sep :: join sep rest
  end.

(** [a || b] on an optional string: [undefined], [null] and the empty
    string select the right operand. *)
Definition or_default (a : option jsstring) (b : jsstring) : jsstring :=
  match a with
  | Some s => if truthy s then s else b
  | None => b
  end.

(** The expression [raw.split(',').map(s => s.trim()).filter(s => s)] of
    [handleSubmit]. *)
Definition normalize (raw : jsstring) : list jsstring :=
  filter truthy (map trim (split comma raw)).

Definition blank (s : jsstring) : bool := forallb is_ws s.

(** *** Lemmas on split, trim and join *)

Lemma split_nonnil sep s : split sep s <> [].
Proof.
  destruct s as [|c r]; simpl; [discriminate|].
  destruct (c =? sep)%N; [discriminate|].
  destruct (split sep r); discriminate.
Qed.

Lemma join_cons sep seg rest :
  rest <> [] -> join sep (seg :: rest) = seg ++ sep :: join sep rest.
Proof. destruct rest; [congruence | reflexivity]. Qed.

Lemma join_split sep s : join sep (split sep s) = s.
Proof.
  induction s as [|c r IH]; [reflexivity|].
  simpl split. destruct (N.eqb_spec c sep) as [->|Hne].
  - rewrite join_cons by apply split_nonnil. simpl. now rewrite IH.
  - pose proof (split_nonnil sep r) as Hnn.
    destruct (split sep r) as [|seg segs]; [congruence|].
    destruct segs as [|seg' segs'].
    + simpl in *. now rewrite IH.
    + rewrite join_cons by discriminate.
      rewrite join_cons in IH by discriminate.
      rewrite <- app_comm_cons. f_equal. exact IH.
Qed.

Lemma split_no_sep sep s seg :
  In seg (split sep s) -> ~ In sep seg.
Proof.
  revert seg. induction s as [|c r IH]; intros seg Hin.
  - simpl in Hin. destruct Hin as [<-|[]]. intros [].
  - simpl in Hin. destruct (N.eqb_spec c sep) as [->|Hne].
    + destruct Hin as [<-|Hin]; [intros []|now apply IH].
    + destruct (split sep r) as [|seg0 segs].
      * destruct Hin as [<-|[]]. intros [H|[]]. congruence.
      * destruct Hin as [<-|Hin].
        -- intros [H|H]; [congruence|]. apply (IH seg0); [now left|exact H].
        -- apply IH. now right.
Qed.

Lemma trimStart_blank s : truthy (trimStart s) = negb (blank s).
Proof.
  induction s as [|c r IH]; [reflexivity|].
  simpl. destruct (is_ws c); [exact IH|reflexivity].
Qed.

Lemma trimStart_head s c r : trimStart s = c :: r -> is_ws c = false.
Proof.
  induction s as [|d t IH]; simpl; [discriminate|].
  destruct (is_ws d) eqn:E; [exact IH|].
  intros H; injection H as -> _. exact E.
Qed.

Lemma trimStart_suffix s : exists p, s = p ++ trimStart s /\ blank p = true.
Proof.
  induction s as [|c r [p [Hp Hb]]].
  - exists []. now split.
  - simpl. destruct (is_ws c) eqn:E.
    + exists (c :: p). simpl. rewrite E, Hb. split; [now f_equal|reflexivity].
    + exists []. now split.
Qed.

Lemma blank_app a b : blank (a ++ b) = blank a && blank b.
Proof. apply forallb_app. Qed.

Lemma blank_rev s : blank (rev s) = blank s.
Proof.
  induction s as [|c r IH]; [reflexivity|].
  simpl. rewrite blank_app, IH. simpl. rewrite andb_true_r. apply andb_comm.
Qed.

Lemma truthy_rev s : truthy (rev s) = truthy s.
Proof.
  destruct s as [|c r]; [reflexivity|].
  simpl. destruct (rev r); reflexivity.
Qed.

Lemma blank_trimStart s : blank (trimStart s) = blank s.
Proof.
  induction s as [|c r IH]; [reflexivity|].
  simpl. destruct (is_ws c) eqn:E; simpl; [exact IH|].
  now rewrite E.
Qed.

Lemma trim_truthy s : truthy (trim s) = negb (blank s).
Proof.
  unfold trim, trimEnd.
  now rewrite truthy_rev, trimStart_blank, blank_rev, blank_trimStart.
Qed.

Lemma blank_trim s : blank (trim s) = blank s.
Proof.
  unfold trim, trimEnd.
  now rewrite blank_rev, blank_trimStart, blank_rev, blank_trimStart.
Qed.

Lemma trimStart_incl s c : In c (trimStart s) -> In c s.
Proof.
  induction s as [|d r IH]; simpl; [tauto|].
  destruct (is_ws d); [right; now apply IH|tauto].
Qed.

Lemma trim_incl s c : In c (trim s) -> In c s.
Proof.
  unfold trim, trimEnd. intros H.
  apply in_rev in H. apply trimStart_incl in H. apply in_rev in H.
  now apply trimStart_incl.
Qed.

(** The first and the last code unit of a trimmed string are not white
    space. *)
Lemma trimStart_rev_head s c r :
  trimStart s = c :: r -> hd c (rev (trimStart (rev (trimStart s)))) = c.
Proof.
  intros E.
  destruct (trimStart_suffix (rev (trimStart s))) as [p [Hp _]].
  apply (f_equal (@rev code_unit)) in Hp.
  rewrite rev_involutive, rev_app_distr, E in Hp. rewrite E.
  destruct (rev (trimStart (rev (c :: r)))) as [|x xs]; [reflexivity|].
  simpl in Hp. now injection Hp as ->.
Qed.

Lemma trim_head s : trim s <> [] -> is_ws (hd 0%N (trim s)) = false.
Proof.
  unfold trim, trimEnd. intros Hne.
  destruct (trimStart s) as [|d t] eqn:Es; [now elim Hne|].
  pose proof (trimStart_head _ _ _ Es) as Hd.
  pose proof (trimStart_rev_head s d t Es) as H. rewrite Es in H.
  destruct (rev (trimStart (rev (d :: t)))) as [|x xs]; [now elim Hne|].
  simpl in *. now subst.
Qed.

Lemma trim_last s : trim s <> [] -> is_ws (last (trim s) 0%N) = false.
Proof.
  unfold trim, trimEnd. intros Hne.
  destruct (trimStart (rev (trimStart s))) as [|d r] eqn:E; [now elim Hne|].
  apply trimStart_head in E.
  simpl. rewrite last_last. exact E.
Qed.

Lemma filter_map_trim segs :
  filter truthy (map trim segs) = map trim (filter (fun s => negb (blank s)) segs).
Proof.
  induction segs as [|s r IH]; [reflexivity|].
  simpl. rewrite trim_truthy. destruct (blank s); simpl; now rewrite IH.
Qed.

End JS.

(** ** Recommendation workflow: the [CareerRecommendations] component *)

Module Reco.
Import JS.

(** The text fields of the form, [useState({interests: '', ...})]. *)
Record FormData := mkFormData {
  interests : jsstring;
  academic_level : jsstring;
  subjects : jsstring;
  strengths : jsstring;
  career_goals : jsstring
}.

(** The body of [POST /career/recommendations]. *)
Record RecommendationRequest := mkRequest {
  req_interests : list jsstring;
  req_academic_level : jsstring;
  req_subjects : list jsstring;
  req_strengths : list jsstring;
  req_career_goals : list jsstring
}.

Record RecommendationResult := mkResult {
  career_title : jsstring;
  match_percentage : Z;
  description : jsstring;
  education_path : jsstring;
  local_opportunities : jsstring;
  skills_needed : list jsstring;
  salary_range : jsstring;
  growth_prospects : jsstring
}.

(** The three [useState] cells of the component. *)
Record Component := mkComponent {
  loading : bool;
  recommendations : list RecommendationResult;
  formData : FormData
}.

Inductive Effect :=
| Post (path : string) (body : RecommendationRequest)
| ConsoleError (msg : string).

Definition initialFormData : FormData :=
  mkFormData (lit "") (lit "12th") (lit "") (lit "") (lit "").

Definition initial : Component := mkComponent false [] initialFormData.

Definition setLoading (b : bool) (c : Component) : Component :=
  mkComponent b (recommendations c) (formData c).

Definition setRecommendations (r : list RecommendationResult) (c : Component)
  : Component :=
  mkComponent (loading c) r (formData c).

Definition setFormData (f : FormData) (c : Component) : Component :=
  mkComponent (loading c) (recommendations c) f.

(** The [onChange] handlers of the four rendered inputs:
    [setFormData({...formData, field: e.target.value})]. *)
Definition changeInterests (v : jsstring) (c : Component) : Component :=
  let f := formData c in
  setFormData (mkFormData v (academic_level f) (subjects f) (strengths f)
                 (career_goals f)) c.

Definition changeAcademicLevel (v : jsstring) (c : Component) : Component :=
  let f := formData c in
  setFormData (mkFormData (interests f) v (subjects f) (strengths f)
                 (career_goals f)) c.

Definition changeSubjects (v : jsstring) (c : Component) : Component :=
  let f := formData c in
  setFormData (mkFormData (interests f) (academic_level f) v (strengths f)
                 (career_goals f)) c.

Definition changeStrengths (v : jsstring) (c : Component) : Component :=
  let f := formData c in
  setFormData (mkFormData (interests f) (academic_level f) (subjects f) v
                 (career_goals f)) c.

(** [requestData] of [handleSubmit]. *)
Definition requestData (f : FormData) : RecommendationRequest :=
  mkRequest (normalize (interests f))
            (academic_level f)
            (normalize (subjects f))
            (normalize (strengths f))
            (normalize (career_goals f)).

(** [handleSubmit] up to its [await]: the busy flag is set and the request
    is posted. *)
Definition handleSubmit (c : Component) : Component * list Effect :=
  (setLoading true c,
   [Post "/career/recommendations" (requestData (formData c))]).

(** [handleSubmit] after the [await], when the promise is fulfilled: the
    rest of the [try] block, then [finally]. *)
Definition handleSubmit_fulfilled (recs : list RecommendationResult)
  (c : Component) : Component * list Effect :=
  (setLoading false (setRecommendations recs c), []).

(** [handleSubmit] after the [await], when the promise is rejected: the
    [catch] block, then [finally]. *)
Definition handleSubmit_rejected (c : Component) : Component * list Effect :=
  (setLoading false c, [ConsoleError "Error getting recommendations:"]).

(** The submit button carries [disabled={loading}]: while it is disabled
    the form raises no submit event, neither from a click nor from the
    Enter key, and [handleSubmit] does not run. *)
Definition submitButton (c : Component) : Component * list Effect :=
  if loading c then (c, []) else handleSubmit c.

(** What the component renders from its state: the values of the four
    inputs, the button, and the list of result cards, which is present
    only when [recommendations.length > 0]. *)
Record View := mkView {
  input_interests : jsstring;
  select_academic_level : jsstring;
  input_subjects : jsstring;
  input_strengths : jsstring;
  button_disabled : bool;
  button_spinner : bool;
  result_cards : option (list RecommendationResult)
}.

Definition render (c : Component) : View :=
  let f := formData c in
  mkView (interests f) (academic_level f) (subjects f) (strengths f)
         (loading c) (loading c)
         (if (0 <? List.length (recommendations c))%nat
          then Some (recommendations c) else None).

(** A form instance: the component and the number of its requests that
    have been posted and not answered yet. *)
Record Instance := mkInstance {
  ui : Component;
  in_flight : nat
}.

Inductive Event :=
| ChangeInterests (v : jsstring)
| ChangeAcademicLevel (v : jsstring)
| ChangeSubjects (v : jsstring)
| ChangeStrengths (v : jsstring)
| Submit
| Fulfilled (recs : list RecommendationResult)
| Rejected.

Definition posts (es : list Effect) : nat :=
  List.length (filter (fun e => match e with Post _ _ => true | _ => false end) es).

(** One event.  A response is possible only for a request in flight. *)
Definition step (w : Instance) (ev : Event) : option (Instance * list Effect) :=
  match ev with
  | ChangeInterests v => Some (mkInstance (changeInterests v (ui w)) (in_flight w), [])
  | ChangeAcademicLevel v => Some (mkInstance (changeAcademicLevel v (ui w)) (in_flight w), [])
  | ChangeSubjects v => Some (mkInstance (changeSubjects v (ui w)) (in_flight w), [])
  | ChangeStrengths v => Some (mkInstance (changeStrengths v (ui w)) (in_flight w), [])
  | Submit =>
      let '(c, es) := submitButton (ui w) in
      Some (mkInstance c (posts es + in_flight w), es)
  | Fulfilled recs =>
      match in_flight w with
      | O => None
      | S n => let '(c, es) := handleSubmit_fulfilled recs (ui w) in
               Some (mkInstance c n, es)
      end
  | Rejected =>
      match in_flight w with
      | O => None
      | S n => let '(c, es) := handleSubmit_rejected (ui w) in
               Some (mkInstance c n, es)
      end
  end.

Definition start : Instance := mkInstance initial 0.

Inductive reachable : Instance -> Prop :=
| reach_start : reachable start
| reach_step w ev w' es :
    reachable w -> step w ev = Some (w', es) -> reachable w'.

(** The busy flag is set exactly while one request is in flight. *)
Definition busy_inv (w : Instance) : Prop :=
  in_flight w = if loading (ui w) then 1 else 0.

Lemma busy_inv_reachable w : reachable w -> busy_inv w.
Proof.
  induction 1 as [|w ev w' es Hr IH Hs]; [reflexivity|].
  unfold busy_inv in *. destruct w as [c n]; simpl in *.
  destruct ev; simpl in Hs;
    try (injection Hs as <- <-; simpl; exact IH).
  - unfold submitButton in Hs. destruct (loading c) eqn:L.
    + injection Hs as <- <-. cbn. rewrite ?L. lia.
    + injection Hs as <- <-. cbn. lia.
  - destruct n as [|n]; [discriminate|]. injection Hs as <- <-. simpl.
    destruct (loading c); lia.
  - destruct n as [|n]; [discriminate|]. injection Hs as <- <-. simpl.
    destruct (loading c); lia.
Qed.

(** No rendered input writes [career_goals]. *)
Lemma career_goals_reachable w :
  reachable w -> career_goals (formData (ui w)) = [].
Proof.
  induction 1 as [|w ev w' es Hr IH Hs]; [reflexivity|].
  destruct w as [c n]; simpl in *.
  destruct ev; simpl in Hs;
    try (injection Hs as <- <-; simpl; exact IH).
  - unfold submitButton in Hs. destruct (loading c);
      injection Hs as <- <-; simpl; exact IH.
  - destruct n; [discriminate|]. injection Hs as <- <-. exact IH.
  - destruct n; [discriminate|]. injection Hs as <- <-. exact IH.
Qed.

Lemma normalize_nonblank raw s :
  In s (normalize raw) ->
  s <> [] /\ blank s = false /\ is_ws (hd 0%N s) = false /\
  is_ws (last s 0%N) = false /\ ~ In comma s.
Proof.
  unfold normalize. intros H. apply filter_In in H as [Hin Ht].
  apply in_map_iff in Hin as [seg [<- Hseg]].
  assert (Hne : trim seg <> []) by (destruct (trim seg); [discriminate|congruence]).
  repeat split.
  - exact Hne.
  - rewrite blank_trim. rewrite trim_truthy in Ht. now apply negb_true_iff.
  - now apply trim_head.
  - now apply trim_last.
  - intros Hc. apply trim_incl in Hc. exact (split_no_sep _ _ _ Hseg Hc).
Qed.

End Reco.

(** ** Dashboard data loader: the [useEffect] of the [Dashboard] component *)

Module Dash.
Import JS.

Record Scholarship := mkScholarship {
  sch_id : jsstring;
  sch_title : jsstring;
  sch_amount : jsstring;
  sch_description : jsstring;
  sch_eligibility : jsstring;
  sch_deadline : jsstring
}.

Record Opportunity := mkOpportunity {
  opp_id : jsstring;
  opp_name : jsstring;
  opp_type : jsstring;
  opp_distance : jsstring;
  opp_rating : jsstring;
  opp_location : jsstring;
  opp_courses : list jsstring;
  opp_contact : jsstring
}.

(** The object of role-dependent counters returned by [/dashboard/stats]. *)
Definition Stats := list (string * Z).

Inductive Tab := overview | career | scholarships_tab | opportunities_tab | profile.

(** The four [useState] cells of the component. *)
Record Component := mkComponent {
  activeTab : Tab;
  stats : Stats;
  scholarships : list Scholarship;
  opportunities : list Opportunity
}.

Definition initial : Component := mkComponent overview [] [] [].

Definition setStats (v : Stats) (c : Component) : Component :=
  mkComponent (activeTab c) v (scholarships c) (opportunities c).

Definition setScholarships (v : list Scholarship) (c : Component) : Component :=
  mkComponent (activeTab c) (stats c) v (opportunities c).

Definition setOpportunities (v : list Opportunity) (c : Component) : Component :=
  mkComponent (activeTab c) (stats c) (scholarships c) v.

Inductive Fetch := GetStats | GetScholarships | GetOpportunities.

Definition Fetch_eqb (a b : Fetch) : bool :=
  match a, b with
  | GetStats, GetStats
  | GetScholarships, GetScholarships
  | GetOpportunities, GetOpportunities => true
  | _, _ => false
  end.

(** How the three requests end: [Some data] when the request succeeds,
    [None] when it fails. *)
Record Outcomes := mkOutcomes {
  stats_res : option Stats;
  scholarships_res : option (list Scholarship);
  opportunities_res : option (list Opportunity)
}.

Inductive Effect :=
| ConsoleError (msg : string).

(** The promise built by [Promise.all]: the values received so far and
    whether the promise is settled.  It is fulfilled when the third value
    arrives and rejected by the first request that fails; once settled it
    ignores what arrives later. *)
Record PromiseAll := mkPromiseAll {
  got_stats : option Stats;
  got_scholarships : option (list Scholarship);
  got_opportunities : option (list Opportunity);
  settled : bool
}.

Definition pending : PromiseAll := mkPromiseAll None None None false.

(** [fetchDashboardData] after the [await], when [Promise.all] is
    fulfilled: the three setters. *)
Definition fetch_fulfilled (s : Stats) (sc : list Scholarship)
  (op : list Opportunity) (c : Component) : Component * list Effect :=
  (setOpportunities op (setScholarships sc (setStats s c)), []).

(** [fetchDashboardData] after the [await], when [Promise.all] is
    rejected: the [catch] block. *)
Definition fetch_rejected (c : Component) : Component * list Effect :=
  (c, [ConsoleError "Error fetching dashboard data:"]).

Definition reject (p : PromiseAll) (c : Component)
  : PromiseAll * Component * list Effect :=
  if settled p then (p, c, [])
  else let '(c', es) := fetch_rejected c in
       (mkPromiseAll (got_stats p) (got_scholarships p) (got_opportunities p) true,
        c', es).

Definition resolve (p : PromiseAll) (c : Component)
  : PromiseAll * Component * list Effect :=
  if settled p then (p, c, [])
  else match got_stats p, got_scholarships p, got_opportunities p with
       | Some s, Some sc, Some op =>
           let '(c', es) := fetch_fulfilled s sc op c in
           (mkPromiseAll (got_stats p) (got_scholarships p)
              (got_opportunities p) true, c', es)
       | _, _, _ => (p, c, [])
       end.

(** One of the three requests completes. *)
Definition complete (o : Outcomes) (f : Fetch) (p : PromiseAll) (c : Component)
  : PromiseAll * Component * list Effect :=
  match f with
  | GetStats =>
      match stats_res o with
      | Some v => resolve (mkPromiseAll (Some v) (got_scholarships p)
                             (got_opportunities p) (settled p)) c
      | None => reject p c
      end
  | GetScholarships =>
      match scholarships_res o with
      | Some v => resolve (mkPromiseAll (got_stats p) (Some v)
                             (got_opportunities p) (settled p)) c
      | None => reject p c
      end
  | GetOpportunities =>
      match opportunities_res o with
      | Some v => resolve (mkPromiseAll (got_stats p) (got_scholarships p)
                             (Some v) (settled p)) c
      | None => reject p c
      end
  end.

(** The requests complete in the order [order]. *)
Fixpoint completes (o : Outcomes) (order : list Fetch) (p : PromiseAll)
  (c : Component) : PromiseAll * Component * list Effect :=
  match order with
  | [] => (p, c, [])
  | f :: rest =>
      let '(p1, c1, es1) := complete o f p c in
      let '(p2, c2, es2) := completes o rest p1 c1 in
      (p2, c2, es1 ++ es2)
  end.

(** The effect of mounting the dashboard: the three requests are issued
    at once and complete in some order. *)
Definition fetchDashboardData (o : Outcomes) (order : list Fetch) (c : Component)
  : Component * list Effect :=
  let '(_, c', es) := completes o order pending c in (c', es).

Definition occurs_once (f : Fetch) (order : list Fetch) : bool :=
  Nat.eqb (List.length (filter (Fetch_eqb f) order)) 1.

(** Every request completes exactly once. *)
Definition each_once (order : list Fetch) : bool :=
  occurs_once GetStats order && occurs_once GetScholarships order
  && occurs_once GetOpportunities order.

Lemma occurrences_sum order :
  (List.length (filter (Fetch_eqb GetStats) order)
   + List.length (filter (Fetch_eqb GetScholarships) order)
   + List.length (filter (Fetch_eqb GetOpportunities) order))%nat
  = List.length order.
Proof.
  induction order as [|f r IH]; [reflexivity|].
  destruct f; simpl; lia.
Qed.

(** The six orders in which the three requests can complete. *)
Lemma each_once_orders order :
  each_once order = true ->
  In order [[GetStats; GetScholarships; GetOpportunities];
            [GetStats; GetOpportunities; GetScholarships];
            [GetScholarships; GetStats; GetOpportunities];
            [GetScholarships; GetOpportunities; GetStats];
            [GetOpportunities; GetStats; GetScholarships];
            [GetOpportunities; GetScholarships; GetStats]].
Proof.
  intros H. pose proof (occurrences_sum order) as Hsum.
  unfold each_once, occurs_once in H.
  apply andb_prop in H as [H H3]. apply andb_prop in H as [H1 H2].
  apply Nat.eqb_eq in H1, H2, H3. rewrite H1, H2, H3 in Hsum.
  destruct order as [|a [|b [|c [|d r]]]]; try discriminate.
  destruct a, b, c; simpl in H1, H2, H3; try discriminate; simpl; tauto.
Qed.

(** [Promise.all] is all or nothing, in whatever order the requests
    complete. *)
Lemma fetchDashboardData_all_or_nothing o order c :
  each_once order = true ->
  fetchDashboardData o order c =
  match stats_res o, scholarships_res o, opportunities_res o with
  | Some s, Some sc, Some op => (mkComponent (activeTab c) s sc op, [])
  | _, _, _ => (c, [ConsoleError "Error fetching dashboard data:"])
  end.
Proof.
  intros H. apply each_once_orders in H.
  destruct o as [[s|] [sc|] [op|]]; simpl in H;
    repeat (destruct H as [<-|H]; [reflexivity|]); contradiction.
Qed.

End Dash.

(** ** Authentication form: the zod schemas and [AuthForm] *)

Module AuthForm.
Import JS.

Inductive Field := email | password | full_name | role | phone | preferred_language.

Definition Field_eqb (a b : Field) : bool :=
  match a, b with
  | email, email | password, password | full_name, full_name
  | role, role | phone, phone | preferred_language, preferred_language => true
  | _, _ => false
  end.

(** The values of the form; [None] is a key that is absent. *)
Record Values := mkValues {
  v_email : option jsstring;
  v_password : option jsstring;
  v_full_name : option jsstring;
  v_role : option jsstring;
  v_phone : option jsstring;
  v_preferred_language : option jsstring
}.

Definition get (v : Values) (f : Field) : option jsstring :=
  match f with
  | email => v_email v
  | password => v_password v
  | full_name => v_full_name v
  | role => v_role v
  | phone => v_phone v
  | preferred_language => v_preferred_language v
  end.

(** The part of zod that the schemas use. *)
Inductive StringCheck :=
| Email (message : string)
| Min (n : nat) (message : string).

Inductive ZodType :=
| ZString (checks : list StringCheck)
| ZEnum (options : list jsstring)
| ZOptional (inner : ZodType).

Definition Schema := list (Field * ZodType).

(** [loginSchema] *)
Definition loginSchema : Schema :=
  [ (email, ZString [Email "Invalid email address"]);
    (password, ZString [Min 6 "Password must be at least 6 characters"]) ].

Definition roles : list jsstring :=
  [lit "student"; lit "parent"; lit "counselor"; lit "admin"].

Definition language_codes : list jsstring := [lit "en"; lit "hi"; lit "ks"].

(** [registerSchema] *)
Definition registerSchema : Schema :=
  [ (email, ZString [Email "Invalid email address"]);
    (password, ZString [Min 6 "Password must be at least 6 characters"]);
    (full_name, ZString [Min 2 "Full name must be at least 2 characters"]);
    (role, ZEnum roles);
    (phone, ZOptional (ZString []));
    (preferred_language, ZOptional (ZEnum language_codes)) ].

(** Field errors as the form reads them: [errors.email.message], ... *)
Definition Errors := list (Field * string).

Fixpoint lookup (f : Field) (es : Errors) : option string :=
  match es with
  | [] => None
  | (g, m) :: r => if Field_eqb f g then Some m else lookup f r
  end.

(** The [useState] cells of the form and the [errors] of [useForm]. *)
Record Component := mkComponent {
  loading : bool;
  error : jsstring;
  errors : Errors
}.

Inductive Effect :=
| Post (path : string) (body : Values).

Section Zod.

(** What zod itself provides: its test of an e-mail address and the texts
    of its issues for a missing value and for a value outside an enum. *)
Variable is_email : jsstring -> bool.
Variable required_error : string.
Variable invalid_enum_error : list jsstring -> jsstring -> string.

Definition run_check (k : StringCheck) (s : jsstring) : option string :=
  match k with
  | Email m => if is_email s then None else Some m
  | Min n m => if (List.length s <? n)%nat then Some m else None
  end.

Fixpoint first_issue (ks : list StringCheck) (s : jsstring) : option string :=
  match ks with
  | [] => None
  | k :: r => match run_check k s with
              | Some m => Some m
              | None => first_issue r s
              end
  end.

(** The first issue that a type raises on a value, if any. *)
Fixpoint issue (t : ZodType) (v : option jsstring) : option string :=
  match t with
  | ZString ks =>
      match v with
      | None => Some required_error
      | Some s => first_issue ks s
      end
  | ZEnum opts =>
      match v with
      | None => Some required_error
      | Some s => if existsb (JS.eqb s) opts then None
                  else Some (invalid_enum_error opts s)
      end
  | ZOptional t' =>
      match v with
      | None => None
      | Some _ => issue t' v
      end
  end.

(** [zodResolver(schema)]: one message for every field with an issue. *)
Fixpoint resolver (sc : Schema) (v : Values) : Errors :=
  match sc with
  | [] => []
  | (f, t) :: r =>
      match issue t (get v f) with
      | Some m => (f, m) :: resolver r v
      | None => resolver r v
      end
  end.

Definition has_key (sc : Schema) (f : Field) : bool :=
  existsb (fun e => Field_eqb f (fst e)) sc.

(** The parsed object: the keys of the schema only. *)
Definition parsed (sc : Schema) (v : Values) : Values :=
  let keep f := if has_key sc f then get v f else None in
  mkValues (keep email) (keep password) (keep full_name) (keep role)
           (keep phone) (keep preferred_language).

Definition schema (isLogin : bool) : Schema :=
  if isLogin then loginSchema else registerSchema.

(** [onSubmit] up to its [await]. *)
Definition onSubmit (isLogin : bool) (data : Values) (c : Component)
  : Component * list Effect :=
  let endpoint := (if isLogin then "/auth/login" else "/auth/register")%string in
  (mkComponent true (lit "") (errors c), [Post endpoint data]).

(** [handleSubmit(onSubmit)] of react-hook-form: the resolver runs first
    and [onSubmit] is called only when it reports no error. *)
Definition handleSubmit (isLogin : bool) (v : Values) (c : Component)
  : Component * list Effect :=
  match resolver (schema isLogin) v with
  | [] => onSubmit isLogin (parsed (schema isLogin) v)
            (mkComponent (loading c) (error c) [])
  | errs => (mkComponent (loading c) (error c) errs, [])
  end.

(** The four ways in which an input can break the local rules. *)
Definition violates (isLogin : bool) (v : Values) (f : Field) : bool :=
  match f with
  | email =>
      match v_email v with Some s => negb (is_email s) | None => false end
  | password =>
      match v_password v with
      | Some s => (List.length s <? 6)%nat
      | None => false
      end
  | full_name =>
      negb isLogin &&
      match v_full_name v with
      | Some s => (List.length s <? 2)%nat
      | None => false
      end
  | role =>
      negb isLogin &&
      match v_role v with
      | Some s => negb (existsb (JS.eqb s) roles)
      | None => false
      end
  | phone | preferred_language => false
  end.

Lemma Field_eqb_eq f g : Field_eqb f g = true <-> f = g.
Proof. destruct f, g; simpl; split; congruence. Qed.

Lemma lookup_absent sc v f :
  ~ In f (map fst sc) -> lookup f (resolver sc v) = None.
Proof.
  induction sc as [|[g u] r IH]; simpl; intros Hn; [reflexivity|].
  destruct (issue u (get v g)); [|apply IH; tauto].
  simpl. destruct (Field_eqb f g) eqn:E; [|apply IH; tauto].
  apply Field_eqb_eq in E. subst. tauto.
Qed.

Lemma resolver_lookup sc v f t :
  NoDup (map fst sc) -> In (f, t) sc ->
  lookup f (resolver sc v) = issue t (get v f).
Proof.
  induction sc as [|[g u] r IH]; intros Hnd Hin; [destruct Hin|].
  simpl in Hnd. inversion Hnd as [|? ? Hnotin Hnd']; subst.
  destruct Hin as [Heq|Hin].
  - injection Heq as -> ->. simpl.
    destruct (issue t (get v f)) as [m|] eqn:E.
    + simpl. now rewrite (proj2 (Field_eqb_eq f f) eq_refl).
    + now apply lookup_absent.
  - simpl. destruct (issue u (get v g)) as [m|]; [|now apply IH].
    simpl. destruct (Field_eqb f g) eqn:Efg; [|now apply IH].
    apply Field_eqb_eq in Efg. subst. elim Hnotin.
    change g with (fst (g, t)). now apply in_map.
Qed.

Lemma resolver_fields sc v f :
  In f (map fst (resolver sc v)) -> In f (map fst sc).
Proof.
  induction sc as [|[g u] r IH]; simpl; [tauto|].
  destruct (issue u (get v g)); simpl; tauto.
Qed.

Lemma resolver_NoDup sc v :
  NoDup (map fst sc) -> NoDup (map fst (resolver sc v)).
Proof.
  induction sc as [|[g u] r IH]; simpl; intros Hnd; [constructor|].
  inversion Hnd as [|? ? Hnotin Hnd']; subst.
  destruct (issue u (get v g)); simpl; [|now apply IH].
  constructor; [|now apply IH].
  intros Hin. apply Hnotin. exact (resolver_fields _ _ _ Hin).
Qed.

Lemma schema_NoDup isLogin : NoDup (map fst (schema isLogin)).
Proof.
  destruct isLogin; simpl; repeat constructor; simpl; intuition discriminate.
Qed.

End Zod.

End AuthForm.

(** ** Session and application context: the [App] component *)

Module App.
Import JS.

Record UserIdentity := mkUser {
  id : jsstring;
  full_name : jsstring;
  email : jsstring;
  role : jsstring;
  preferred_language : option jsstring
}.

(** The credential, in the two places that hold it:
    [localStorage.getItem('token')] and
    [axios.defaults.headers.common['Authorization']]. *)
Record Session := mkSession {
  token : option jsstring;
  authorization : option jsstring
}.

(** The four [useState] cells of [App]. *)
Record Component := mkComponent {
  user : option UserIdentity;
  loading : bool;
  authMode : option bool;
  currentLanguage : jsstring
}.

Definition bearer (tok : jsstring) : jsstring := lit "Bearer " ++ tok.

Definition setItem (tok : jsstring) (s : Session) : Session :=
  mkSession (Some tok) (authorization s).

Definition removeItem (s : Session) : Session :=
  mkSession None (authorization s).

Definition setAuthorization (h : jsstring) (s : Session) : Session :=
  mkSession (token s) (Some h).

Definition deleteAuthorization (s : Session) : Session :=
  mkSession (token s) None.

Definition setUser (u : option UserIdentity) (c : Component) : Component :=
  mkComponent u (loading c) (authMode c) (currentLanguage c).

Definition setLoading (b : bool) (c : Component) : Component :=
  mkComponent (user c) b (authMode c) (currentLanguage c).

Definition setAuthMode (m : option bool) (c : Component) : Component :=
  mkComponent (user c) (loading c) m (currentLanguage c).

Definition setCurrentLanguage (l : jsstring) (c : Component) : Component :=
  mkComponent (user c) (loading c) (authMode c) l.

Definition initial : Component := mkComponent None true None (lit "en").

(** The start-up effect up to the answer of [/auth/me].  The boolean tells
    whether the request was sent. *)
Definition startup (s : Session) (c : Component) : Session * Component * bool :=
  match token s with
  | Some tok =>
      if truthy tok then (setAuthorization (bearer tok) s, c, true)
      else (s, setLoading false c, false)
  | None => (s, setLoading false c, false)
  end.

(** [.then(...)] and [.finally(...)] of the start-up effect. *)
Definition startup_then (u : UserIdentity) (s : Session) (c : Component)
  : Session * Component :=
  (s, setLoading false
        (setCurrentLanguage (or_default (preferred_language u) (lit "en"))
           (setUser (Some u) c))).

(** [.catch(...)] and [.finally(...)] of the start-up effect. *)
Definition startup_catch (s : Session) (c : Component) : Session * Component :=
  (deleteAuthorization (removeItem s), setLoading false c).

Definition handleAuthSuccess (userData : UserIdentity) (c : Component)
  : Component :=
  setAuthMode None
    (setCurrentLanguage (or_default (preferred_language userData) (lit "en"))
       (setUser (Some userData) c)).

(** [onSubmit] of [AuthForm] after its [await], when the server accepts:
    the token is stored, the header is set and [onSuccess] is called. *)
Definition onSubmit_fulfilled (access_token : jsstring) (u : UserIdentity)
  (s : Session) (c : Component) : Session * Component :=
  (setAuthorization (bearer access_token) (setItem access_token s),
   handleAuthSuccess u c).

Definition handleLogout (s : Session) (c : Component) : Session * Component :=
  (deleteAuthorization (removeItem s), setAuthMode None (setUser None c)).

(** What [App] renders. *)
Inductive Screen :=
| Spinner
| Landing
| AuthScreen (isLogin : bool)
| DashboardScreen (u : UserIdentity).

Definition screen (c : Component) : Screen :=
  if loading c then Spinner
  else match user c with
       | Some u => DashboardScreen u
       | None => match authMode c with
                 | None => Landing
                 | Some isLogin => AuthScreen isLogin
                 end
       end.

(** The application: the session, the component, whether the start-up
    effect has run, whether [/auth/me] is awaited, and the login ([true])
    and registration ([false]) requests that are awaited. *)
Record World := mkWorld {
  session : Session;
  app : Component;
  mounted : bool;
  verifying : bool;
  auth_requests : list bool
}.

Definition language_codes : list jsstring := [lit "en"; lit "hi"; lit "ks"].

Inductive Event :=
| Mount
| VerifyFulfilled (u : UserIdentity)
| VerifyRejected
| SelectLanguage (code : jsstring)
| ChooseAuthMode (isLogin : bool)
| ToggleAuthMode
| BackToHome
| AuthSubmitted
| AuthFulfilled (isLogin : bool) (access_token : jsstring) (u : UserIdentity)
| AuthRejected (isLogin : bool)
| Logout.

Fixpoint remove_one (b : bool) (l : list bool) : list bool :=
  match l with
  | [] => []
  | x :: r => if Bool.eqb b x then r else x :: remove_one b r
  end.

Definition awaited (b : bool) (l : list bool) : bool := existsb (Bool.eqb b) l.

(** One event.  An event of the user is possible only on the screen that
    offers it, an answer only for a request that is awaited.
    [AuthSubmitted] is [onSubmit] of the form posting its request; the
    validation that comes before it is in [AuthForm]. *)
Definition step (w : World) (ev : Event) : option World :=
  let s := session w in
  let c := app w in
  match ev with
  | Mount =>
      if mounted w then None
      else let '(s', c', sent) := startup s c in
           Some (mkWorld s' c' true sent (auth_requests w))
  | VerifyFulfilled u =>
      if verifying w
      then let '(s', c') := startup_then u s c in
           Some (mkWorld s' c' (mounted w) false (auth_requests w))
      else None
  | VerifyRejected =>
      if verifying w
      then let '(s', c') := startup_catch s c in
           Some (mkWorld s' c' (mounted w) false (auth_requests w))
      else None
  | SelectLanguage code =>
      if negb (loading c) && existsb (JS.eqb code) language_codes
      then Some (mkWorld s (setCurrentLanguage code c) (mounted w)
                   (verifying w) (auth_requests w))
      else None
  | ChooseAuthMode isLogin =>
      match screen c with
      | Landing => Some (mkWorld s (setAuthMode (Some isLogin) c) (mounted w)
                           (verifying w) (auth_requests w))
      | _ => None
      end
  | ToggleAuthMode =>
      match screen c with
      | AuthScreen isLogin =>
          Some (mkWorld s (setAuthMode (Some (negb isLogin)) c) (mounted w)
                  (verifying w) (auth_requests w))
      | _ => None
      end
  | BackToHome =>
      match screen c with
      | AuthScreen _ => Some (mkWorld s (setAuthMode None c) (mounted w)
                                (verifying w) (auth_requests w))
      | _ => None
      end
  | AuthSubmitted =>
      match screen c with
      | AuthScreen isLogin =>
          Some (mkWorld s c (mounted w) (verifying w)
                  (isLogin :: auth_requests w))
      | _ => None
      end
  | AuthFulfilled isLogin access_token u =>
      if awaited isLogin (auth_requests w)
      then let '(s', c') := onSubmit_fulfilled access_token u s c in
           Some (mkWorld s' c' (mounted w) (verifying w)
                   (remove_one isLogin (auth_requests w)))
      else None
  | AuthRejected isLogin =>
      if awaited isLogin (auth_requests w)
      then Some (mkWorld s c (mounted w) (verifying w)
                   (remove_one isLogin (auth_requests w)))
      else None
  | Logout =>
      match screen c with
      | DashboardScreen _ =>
          let '(s', c') := handleLogout s c in
          Some (mkWorld s' c' (mounted w) (verifying w) (auth_requests w))
      | _ => None
      end
  end.

(** The page is loaded with whatever the storage holds. *)
Definition start (stored : option jsstring) : World :=
  mkWorld (mkSession stored None) initial false false [].

Inductive reachable : World -> Prop :=
| reach_start stored : reachable (start stored)
| reach_step w ev w' : reachable w -> step w ev = Some w' -> reachable w'.

Record Inv (w : World) : Prop := mkInv {
  inv_unmounted :
    mounted w = false ->
    authorization (session w) = None /\ verifying w = false /\
    loading (app w) = true;
  inv_loading :
    loading (app w) = true -> user (app w) = None /\ auth_requests w = [];
  inv_verifying :
    verifying w = true ->
    loading (app w) = true /\ authorization (session w) <> None;
  inv_header :
    forall h, authorization (session w) = Some h ->
    exists tok, token (session w) = Some tok /\ h = bearer tok;
  inv_user :
    user (app w) <> None -> authorization (session w) <> None;
  inv_anonymous :
    user (app w) = None -> authorization (session w) <> None ->
    verifying w = true
}.

Lemma awaited_nonempty b l : awaited b l = true -> l <> [].
Proof. destruct l; [discriminate|congruence]. Qed.

Arguments bearer : simpl never.
Arguments awaited : simpl never.

Lemma screen_auth c b :
  screen c = AuthScreen b -> loading c = false /\ user c = None.
Proof.
  unfold screen. destruct (loading c); [discriminate|].
  destruct (user c); [discriminate|]. auto.
Qed.

Lemma screen_dashboard c u :
  screen c = DashboardScreen u -> loading c = false /\ user c = Some u.
Proof.
  unfold screen. destruct (loading c); [discriminate|].
  destruct (user c) as [u'|]; [|destruct (authMode c); discriminate].
  intros H; injection H as ->. auto.
Qed.

Lemma Inv_start stored : Inv (start stored).
Proof.
  constructor; simpl; intros; try discriminate; try congruence; auto.
Qed.

Lemma Inv_step w ev w' : Inv w -> step w ev = Some w' -> Inv w'.
Proof.
  intros [I1 I2 I3 I4 I5 I6] Hs.
  destruct w as [[tk au] [u ld am cl] m v rq]. simpl in *.
  destruct ev; cbn in Hs.
  - (* Mount *)
    destruct m; [discriminate|]. destruct (I1 eq_refl) as [-> [-> ->]].
    destruct (I2 eq_refl) as [-> ->].
    unfold startup in Hs. simpl in Hs.
    destruct tk as [tok|]; [destruct (truthy tok)|];
      injection Hs as <-; constructor; simpl; intros;
      try discriminate; try congruence; auto.
    + split; [reflexivity|discriminate].
    + exists tok. split; congruence.
  - (* VerifyFulfilled *)
    destruct v; [|discriminate]. injection Hs as <-.
    destruct (I3 eq_refl) as [-> Hau].
    constructor; simpl; intros; try discriminate; try congruence; auto.
    destruct m; [discriminate|]. destruct (I1 eq_refl) as [_ [? _]]. discriminate.
  - (* VerifyRejected *)
    destruct v; [|discriminate]. injection Hs as <-.
    destruct (I3 eq_refl) as [-> Hau].
    constructor; simpl; intros; try discriminate; try congruence; auto.
    + destruct m; [discriminate|]. destruct (I1 eq_refl) as [_ [? _]]. discriminate.
    + now destruct (I2 eq_refl).
  - (* SelectLanguage *)
    destruct (negb ld && _); [|discriminate]. injection Hs as <-.
    constructor; simpl; auto.
  - (* ChooseAuthMode *)
    destruct (screen _); try discriminate. injection Hs as <-.
    constructor; simpl; auto.
  - (* ToggleAuthMode *)
    destruct (screen _); try discriminate. injection Hs as <-.
    constructor; simpl; auto.
  - (* BackToHome *)
    destruct (screen _); try discriminate. injection Hs as <-.
    constructor; simpl; auto.
  - (* AuthSubmitted *)
    destruct (screen _) eqn:E; try discriminate. injection Hs as <-.
    apply screen_auth in E as [E1 E2]. simpl in E1, E2. subst.
    constructor; simpl; intros; try discriminate; auto.
  - (* AuthFulfilled *)
    destruct (awaited isLogin rq) eqn:E; [|discriminate]. injection Hs as <-.
    apply awaited_nonempty in E.
    assert (ld = false) as -> by (destruct ld; [now destruct (I2 eq_refl)|reflexivity]).
    assert (v = false) as -> by (destruct v; [now destruct (I3 eq_refl)|reflexivity]).
    assert (m = true) as -> by (destruct m; [reflexivity|now destruct (I1 eq_refl) as [_ [_ ?]]]).
    constructor; simpl; intros; try discriminate; try congruence.
    exists access_token. split; congruence.
  - (* AuthRejected *)
    destruct (awaited isLogin rq) eqn:E; [|discriminate]. injection Hs as <-.
    apply awaited_nonempty in E.
    assert (ld = false) as -> by (destruct ld; [now destruct (I2 eq_refl)|reflexivity]).
    constructor; simpl; intros; try discriminate; auto.
  - (* Logout *)
    destruct (screen _) eqn:E; try discriminate. injection Hs as <-.
    apply screen_dashboard in E as [E1 E2]. simpl in E1, E2. subst.
    assert (v = false) as -> by (destruct v; [now destruct (I3 eq_refl)|reflexivity]).
    assert (m = true) as -> by (destruct m; [reflexivity|now destruct (I1 eq_refl) as [_ [_ ?]]]).
    constructor; simpl; intros; try discriminate; try congruence; auto.
Qed.

Lemma Inv_reachable w : reachable w -> Inv w.
Proof.
  induction 1 as [stored|w ev w' _ IH Hs]; [apply Inv_start|].
  exact (Inv_step _ _ _ IH Hs).
Qed.

End App.

(** ** More on the normalisation of the text fields *)

Module Norm.
Import JS.

(** [s] occurs in [raw] as a run of consecutive code units. *)
Definition occurs_in (s raw : jsstring) : Prop :=
  exists a b, raw = a ++ s ++ b.

(** A code unit that [normalize] never keeps on its own: white space or
    the comma. *)
Definition is_filler (c : code_unit) : bool := is_ws c || (c =? comma)%N.

Definition commas (raw : jsstring) : nat :=
  List.length (filter (N.eqb comma) raw).

Lemma split_first_prefix sep s seg segs :
  split sep s = seg :: segs -> exists b, s = seg ++ b.
Proof.
  intros E. pose proof (join_split sep s) as J. rewrite E in J.
  destruct segs as [|seg' segs'].
  - exists []. simpl in J. now rewrite app_nil_r.
  - rewrite join_cons in J by discriminate. eexists. symmetry. exact J.
Qed.

Lemma split_occurs sep s seg : In seg (split sep s) -> occurs_in seg s.
Proof.
  revert seg. induction s as [|c r IH]; intros seg Hin.
  - simpl in Hin. destruct Hin as [<-|[]]. now exists [], [].
  - simpl in Hin. destruct (N.eqb_spec c sep) as [->|Hne].
    + destruct Hin as [<-|Hin]; [now exists [], (sep :: r)|].
      destruct (IH _ Hin) as [a [b ->]]. now exists (sep :: a), b.
    + destruct (split sep r) as [|seg0 segs] eqn:E.
      * destruct Hin as [<-|[]]. elim (split_nonnil sep r E).
      * destruct Hin as [<-|Hin].
        -- destruct (split_first_prefix _ _ _ _ E) as [b ->].
           now exists [], b.
        -- destruct (IH seg (or_intror Hin)) as [a [b ->]].
           now exists (c :: a), b.
Qed.

Lemma trimEnd_prefix s : exists q, s = trimEnd s ++ q /\ blank q = true.
Proof.
  unfold trimEnd. destruct (trimStart_suffix (rev s)) as [p [Hp Hb]].
  exists (rev p). split; [|now rewrite blank_rev].
  rewrite <- rev_app_distr, <- Hp. now rewrite rev_involutive.
Qed.

Lemma trim_occurs s :
  exists p q, s = p ++ trim s ++ q /\ blank p = true /\ blank q = true.
Proof.
  destruct (trimStart_suffix s) as [p [Hp Hbp]].
  destruct (trimEnd_prefix (trimStart s)) as [q [Hq Hbq]].
  exists p, q. unfold trim. rewrite <- Hq. auto.
Qed.

Lemma occurs_in_trans a b c : occurs_in a b -> occurs_in b c -> occurs_in a c.
Proof.
  intros [x [y ->]] [u [v ->]]. exists (u ++ x), (y ++ v).
  now rewrite <- !app_assoc.
Qed.

Lemma split_single sep a : ~ In sep a -> split sep a = [a].
Proof.
  induction a as [|c r IH]; intros Hn; [reflexivity|].
  simpl. destruct (N.eqb_spec c sep) as [->|Hne]; [elim Hn; now left|].
  rewrite IH; [reflexivity|]. intros H. apply Hn. now right.
Qed.

Lemma split_app sep a rest :
  ~ In sep a -> split sep (a ++ sep :: rest) = a :: split sep rest.
Proof.
  induction a as [|c r IH]; intros Hn.
  - simpl. now rewrite N.eqb_refl.
  - simpl. destruct (N.eqb_spec c sep) as [->|Hne]; [elim Hn; now left|].
    rewrite IH; [reflexivity|]. intros H. apply Hn. now right.
Qed.

Lemma split_join sep l :
  l <> [] -> (forall s, In s l -> ~ In sep s) -> split sep (join sep l) = l.
Proof.
  induction l as [|a r IH]; intros Hne Hall; [congruence|].
  destruct r as [|b r'].
  - simpl. apply split_single. apply Hall. now left.
  - rewrite join_cons by discriminate.
    rewrite split_app by (apply Hall; now left).
    rewrite IH; [reflexivity|discriminate|].
    intros s Hs. apply Hall. now right.
Qed.

Lemma trimStart_fixed s :
  is_ws (hd 0%N s) = false -> trimStart s = s.
Proof. destruct s as [|c r]; [reflexivity|]. simpl. now intros ->. Qed.

Lemma hd_rev s : hd 0%N (rev s) = last s 0%N.
Proof.
  destruct (rev s) as [|x xs] eqn:E.
  - apply (f_equal (@rev code_unit)) in E. rewrite rev_involutive in E.
    now subst.
  - apply (f_equal (@rev code_unit)) in E. rewrite rev_involutive in E.
    subst. simpl. now rewrite last_last.
Qed.

Lemma trimEnd_fixed s :
  is_ws (last s 0%N) = false -> trimEnd s = s.
Proof.
  intros H. unfold trimEnd. rewrite trimStart_fixed.
  - apply rev_involutive.
  - now rewrite hd_rev.
Qed.

Lemma trim_idempotent s : trim (trim s) = trim s.
Proof.
  destruct (trim s) as [|c r] eqn:E; [reflexivity|]. rewrite <- E.
  assert (Hne : trim s <> []) by (rewrite E; discriminate).
  unfold trim at 1.
  rewrite trimStart_fixed by now apply trim_head.
  apply trimEnd_fixed. now apply trim_last.
Qed.

Lemma normalize_fixed l :
  (forall s, In s l -> trim s = s /\ truthy s = true) ->
  filter truthy (map trim l) = l.
Proof.
  induction l as [|a r IH]; intros H; [reflexivity|].
  simpl. destruct (H a (or_introl eq_refl)) as [-> ->].
  f_equal. apply IH. intros s Hs. apply H. now right.
Qed.

Lemma normalize_entry raw s :
  In s (normalize raw) ->
  trim s = s /\ truthy s = true /\ ~ In comma s.
Proof.
  unfold normalize. intros H. apply filter_In in H as [Hin Ht].
  apply in_map_iff in Hin as [seg [<- Hseg]].
  split; [apply trim_idempotent|]. split; [exact Ht|].
  intros Hc. apply trim_incl in Hc. exact (split_no_sep _ _ _ Hseg Hc).
Qed.

Lemma blank_segments raw :
  forallb blank (split comma raw) = forallb is_filler raw.
Proof.
  induction raw as [|c r IH]; [reflexivity|].
  change (forallb is_filler (c :: r))
    with (is_filler c && forallb is_filler r).
  assert (Hc : is_filler c = is_ws c || (c =? comma)%N) by reflexivity.
  rewrite Hc, <- IH. simpl split.
  destruct (N.eqb_spec c comma) as [->|Hne].
  - now rewrite orb_true_r.
  - pose proof (split_nonnil comma r) as Hnn.
    destruct (split comma r) as [|seg segs]; [congruence|].
    rewrite orb_false_r.
    change (forallb blank ((c :: seg) :: segs))
      with ((is_ws c && blank seg) && forallb blank segs).
    change (forallb blank (seg :: segs))
      with (blank seg && forallb blank segs).
    now rewrite andb_assoc.
Qed.

Lemma filter_nil_forallb {A} (p : A -> bool) l :
  filter (fun x => negb (p x)) l = [] <-> forallb p l = true.
Proof.
  induction l as [|a r IH]; simpl; [tauto|].
  destruct (p a); simpl; [exact IH|]. split; discriminate.
Qed.

Lemma split_length sep s :
  List.length (split sep s) = S (List.length (filter (N.eqb sep) s)).
Proof.
  induction s as [|c r IH]; [reflexivity|].
  simpl. rewrite (N.eqb_sym sep c). destruct (N.eqb c sep).
  - simpl. now rewrite IH.
  - pose proof (split_nonnil sep r) as Hnn.
    destruct (split sep r) as [|seg segs]; [congruence|].
    simpl in *. exact IH.
Qed.

End Norm.

(** ** Dashboard: tabs and the overview cards *)

Module DashView.
Import JS.

(** [setActiveTab], called by the side bar and by the quick actions. *)
Definition setActiveTab (t : Dash.Tab) (c : Dash.Component) : Dash.Component :=
  Dash.mkComponent t (Dash.stats c) (Dash.scholarships c) (Dash.opportunities c).

(** What happens to a mounted dashboard: the user selects a tab, or one
    of the three requests completes. *)
Inductive Event :=
| Select (t : Dash.Tab)
| Completes (f : Dash.Fetch).

Fixpoint run (o : Dash.Outcomes) (evs : list Event) (p : Dash.PromiseAll)
  (c : Dash.Component) : Dash.PromiseAll * Dash.Component * list Dash.Effect :=
  match evs with
  | [] => (p, c, [])
  | Select t :: rest => run o rest p (setActiveTab t c)
  | Completes f :: rest =>
      let '(p1, c1, es1) := Dash.complete o f p c in
      let '(p2, c2, es2) := run o rest p1 c1 in
      (p2, c2, es1 ++ es2)
  end.

(** The dashboard after the events [evs], from the moment it is mounted. *)
Definition dashboard (o : Dash.Outcomes) (evs : list Event) (c : Dash.Component)
  : Dash.Component * list Dash.Effect :=
  let '(_, c', es) := run o evs Dash.pending c in (c', es).

Fixpoint fetches (evs : list Event) : list Dash.Fetch :=
  match evs with
  | [] => []
  | Select _ :: rest => fetches rest
  | Completes f :: rest => f :: fetches rest
  end.

Fixpoint last_tab (evs : list Event) (t0 : Dash.Tab) : Dash.Tab :=
  match evs with
  | [] => t0
  | Select t :: rest => last_tab rest t
  | Completes _ :: rest => last_tab rest t0
  end.

(** [stats[key]] *)
Fixpoint counter (key : string) (s : Dash.Stats) : option Z :=
  match s with
  | [] => None
  | (k, z) :: rest => if String.eqb key k then Some z else counter key rest
  end.

(** [value || 0] on a counter. *)
Definition or_zero (v : option Z) : Z :=
  match v with
  | Some z => if (z =? 0)%Z then 0%Z else z
  | None => 0%Z
  end.

(** The value of a card: a number, or the text made of a number and the
    per cent sign. *)
Inductive CardValue :=
| Count (z : Z)
| Percent (z : Z).

Record Card := mkCard {
  title : string;
  value : CardValue;
  icon : string;
  color : string
}.

(** The cards of the overview tab. *)
Definition overviewCards (role : jsstring) (s : Dash.Stats) : list Card :=
  (if JS.eqb role (lit "student")
   then [ mkCard "Recommendations Received"
            (Count (or_zero (counter "recommendations_received" s)))
            "Brain" "emerald";
          mkCard "Quizzes Completed"
            (Count (or_zero (counter "quizzes_completed" s)))
            "Award" "blue";
          mkCard "Profile Completion"
            (Percent (or_zero (counter "profile_completion" s)))
            "Target" "purple" ]
   else [])
  ++
  (if JS.eqb role (lit "counselor")
   then [ mkCard "Total Students"
            (Count (or_zero (counter "total_students" s)))
            "Users" "emerald";
          mkCard "Active Sessions"
            (Count (or_zero (counter "active_sessions" s)))
            "Brain" "blue";
          mkCard "Recommendations Given"
            (Count (or_zero (counter "recommendations_given" s)))
            "Target" "purple" ]
   else []).

Definition shows_zero (k : Card) : bool :=
  match value k with
  | Count z | Percent z => (z =? 0)%Z
  end.

Lemma setActiveTab_same c : setActiveTab (Dash.activeTab c) c = c.
Proof. now destruct c. Qed.

Lemma complete_tab o f p t c :
  Dash.complete o f p (setActiveTab t c) =
  let '(p', c', es) := Dash.complete o f p c in (p', setActiveTab t c', es).
Proof.
  destruct o as [[s|] [sc|] [op|]], p as [[gs|] [gsc|] [gop|] [|]], f;
    reflexivity.
Qed.

Lemma complete_activeTab o f p c :
  Dash.activeTab (snd (fst (Dash.complete o f p c))) = Dash.activeTab c.
Proof.
  destruct o as [[s|] [sc|] [op|]], p as [[gs|] [gsc|] [gop|] [|]], f;
    reflexivity.
Qed.

Lemma completes_tab o l : forall p t c,
  Dash.completes o l p (setActiveTab t c) =
  let '(p', c', es) := Dash.completes o l p c in (p', setActiveTab t c', es).
Proof.
  induction l as [|f r IH]; intros p t c; [reflexivity|].
  simpl. rewrite complete_tab.
  destruct (Dash.complete o f p c) as [[p1 c1] es1].
  rewrite IH. now destruct (Dash.completes o r p1 c1) as [[p2 c2] es2].
Qed.

(** Selecting tabs and receiving answers do not disturb each other. *)
Lemma run_completes o evs : forall p c,
  run o evs p c =
  let '(p', c', es) := Dash.completes o (fetches evs) p c in
  (p', setActiveTab (last_tab evs (Dash.activeTab c)) c', es).
Proof.
  induction evs as [|[t|f] rest IH]; intros p c.
  - simpl. now rewrite setActiveTab_same.
  - simpl. rewrite IH, completes_tab.
    now destruct (Dash.completes o (fetches rest) p c) as [[p' c'] es].
  - simpl. pose proof (complete_activeTab o f p c) as Ht.
    destruct (Dash.complete o f p c) as [[p1 c1] es1]. simpl in Ht.
    rewrite IH, Ht.
    now destruct (Dash.completes o (fetches rest) p1 c1) as [[p2 c2] es2].
Qed.

Lemma overviewCards_length role s :
  List.length (overviewCards role s) =
    (if JS.eqb role (lit "student") || JS.eqb role (lit "counselor")
     then 3 else 0)%nat.
Proof.
  unfold overviewCards, JS.eqb.
  destruct (list_eq_dec N.eq_dec role (lit "student")) as [->|H1];
    [reflexivity|].
  destruct (list_eq_dec N.eq_dec role (lit "counselor")); reflexivity.
Qed.

Lemma overviewCards_unloaded role :
  forallb shows_zero (overviewCards role []) = true.
Proof.
  unfold overviewCards.
  destruct (JS.eqb role (lit "student")), (JS.eqb role (lit "counselor"));
    reflexivity.
Qed.

End DashView.

(** ** Authentication form: submission and answers *)

Module AuthFlow.
Import JS.

Definition is_none {A} (o : option A) : bool :=
  match o with
  | None => true
  | Some _ => false
  end.

Section Flow.

Variable is_email : jsstring -> bool.
Variable required_error : string.
Variable invalid_enum_error : list jsstring -> jsstring -> string.

Definition handleSubmit :=
  AuthForm.handleSubmit is_email required_error invalid_enum_error.

(** The submit button carries [disabled={loading}]. *)
Definition submitButton (isLogin : bool) (v : AuthForm.Values)
  (c : AuthForm.Component) : AuthForm.Component * list AuthForm.Effect :=
  if AuthForm.loading c then (c, []) else handleSubmit isLogin v c.

(** [onSubmit] after its [await], when the request fails: the [catch]
    block, then [finally].  [detail] is [err.response?.data?.detail]. *)
Definition onSubmit_rejected (detail : option jsstring) (c : AuthForm.Component)
  : AuthForm.Component :=
  AuthForm.mkComponent false (or_default detail (lit "An error occurred"))
    (AuthForm.errors c).

(** What [onSubmit] does to the form after its [await] when the request
    succeeds: [finally]. *)
Definition onSubmit_settled (c : AuthForm.Component) : AuthForm.Component :=
  AuthForm.mkComponent false (AuthForm.error c) (AuthForm.errors c).

(** The box above the form is rendered when [error] is truthy. *)
Definition error_box (c : AuthForm.Component) : option jsstring :=
  if truthy (AuthForm.error c) then Some (AuthForm.error c) else None.

(** An input that passes the schema of the form. *)
Definition acceptable (isLogin : bool) (v : AuthForm.Values) : bool :=
  match AuthForm.v_email v with Some e => is_email e | None => false end
  && match AuthForm.v_password v with
     | Some p => negb (List.length p <? 6)%nat
     | None => false
     end
  && (isLogin ||
      (match AuthForm.v_full_name v with
       | Some n => negb (List.length n <? 2)%nat
       | None => false
       end
       && match AuthForm.v_role v with
          | Some r => existsb (JS.eqb r) AuthForm.roles
          | None => false
          end
       && match AuthForm.v_preferred_language v with
          | Some l => existsb (JS.eqb l) AuthForm.language_codes
          | None => true
          end)).

(** A form instance: the component and the number of its requests that
    have been posted and not answered yet. *)
Record Instance := mkInstance {
  form : AuthForm.Component;
  in_flight : nat
}.

Inductive Event :=
| Submit (isLogin : bool) (v : AuthForm.Values)
| Fulfilled
| Rejected (detail : option jsstring).

Definition step (w : Instance) (ev : Event)
  : option (Instance * list AuthForm.Effect) :=
  match ev with
  | Submit isLogin v =>
      let '(c, es) := submitButton isLogin v (form w) in
      Some (mkInstance c (List.length es + in_flight w), es)
  | Fulfilled =>
      match in_flight w with
      | O => None
      | S n => Some (mkInstance (onSubmit_settled (form w)) n, [])
      end
  | Rejected detail =>
      match in_flight w with
      | O => None
      | S n => Some (mkInstance (onSubmit_rejected detail (form w)) n, [])
      end
  end.

Definition start : Instance :=
  mkInstance (AuthForm.mkComponent false (lit "") []) 0.

Inductive reachable : Instance -> Prop :=
| reach_start : reachable start
| reach_step w ev w' es :
    reachable w -> step w ev = Some (w', es) -> reachable w'.

Lemma resolver_nil sc v :
  AuthForm.resolver is_email required_error invalid_enum_error sc v = [] <->
  forallb (fun e => is_none (AuthForm.issue is_email required_error
                               invalid_enum_error (snd e)
                               (AuthForm.get v (fst e)))) sc = true.
Proof.
  induction sc as [|[f t] r IH]; simpl; [tauto|].
  destruct (AuthForm.issue _ _ _ t (AuthForm.get v f)); simpl; [|exact IH].
  split; discriminate.
Qed.

Lemma schema_accepts isLogin v :
  forallb (fun e => is_none (AuthForm.issue is_email required_error
                               invalid_enum_error (snd e)
                               (AuthForm.get v (fst e))))
    (AuthForm.schema isLogin) = acceptable isLogin v.
Proof.
  unfold acceptable. destruct v as [e p n r ph l].
  destruct isLogin; simpl;
    repeat (match goal with
            | |- context [match ?x with Some _ => _ | None => _ end] =>
                is_var x; destruct x
            | |- context [if ?b then _ else _] => destruct b
            end; simpl);
    reflexivity.
Qed.

Lemma handleSubmit_cases isLogin v c :
  handleSubmit isLogin v c =
  if acceptable isLogin v
  then AuthForm.onSubmit isLogin (AuthForm.parsed (AuthForm.schema isLogin) v)
         (AuthForm.mkComponent (AuthForm.loading c) (AuthForm.error c) [])
  else (AuthForm.mkComponent (AuthForm.loading c) (AuthForm.error c)
          (AuthForm.resolver is_email required_error invalid_enum_error
             (AuthForm.schema isLogin) v), []).
Proof.
  unfold handleSubmit, AuthForm.handleSubmit.
  rewrite <- schema_accepts.
  pose proof (resolver_nil (AuthForm.schema isLogin) v) as H.
  destruct (AuthForm.resolver _ _ _ (AuthForm.schema isLogin) v) as [|e es].
  - now rewrite (proj1 H eq_refl).
  - destruct (forallb _ _); [|reflexivity].
    now specialize (proj2 H eq_refl).
Qed.

(** The busy flag is set exactly while one request is in flight. *)
Lemma busy_reachable w :
  reachable w -> in_flight w = if AuthForm.loading (form w) then 1 else 0.
Proof.
  induction 1 as [|w ev w' es Hr IH Hs]; [reflexivity|].
  destruct w as [c n]. simpl in *. destruct ev; simpl in Hs.
  - unfold submitButton in Hs. destruct (AuthForm.loading c) eqn:L.
    + injection Hs as <- <-. simpl. now rewrite L.
    + rewrite handleSubmit_cases in Hs.
      destruct (acceptable isLogin v); injection Hs as <- <-; simpl;
        rewrite ?L; lia.
  - destruct n; [discriminate|]. injection Hs as <- <-. simpl.
    destruct (AuthForm.loading c); lia.
  - destruct n; [discriminate|]. injection Hs as <- <-. simpl.
    destruct (AuthForm.loading c); lia.
Qed.

End Flow.

End AuthFlow.

(** ** Translations: the table [translations] and the function [t] *)

Module I18n.
Import JS.

(** The three tables of [translations], in the order of the source; the
    texts that are not ASCII are given by their code units. *)
Definition translations_en : list (jsstring * jsstring) :=
  [
    (lit "welcome", lit "Welcome to EduPath");
    (lit "tagline",
       lit "Your Personalized Career & Education Advisory Platform");
    (lit "login", lit "Login");
    (lit "register", lit "Register");
    (lit "email", lit "Email");
    (lit "password", lit "Password");
    (lit "fullName", lit "Full Name");
    (lit "phone", lit "Phone Number");
    (lit "role", lit "Role");
    (lit "student", lit "Student");
    (lit "parent", lit "Parent");
    (lit "counselor", lit "Counselor");
    (lit "admin", lit "Admin");
    (lit "dashboard", lit "Dashboard");
    (lit "careerRecommendations", lit "Career Recommendations");
    (lit "scholarships", lit "Scholarships");
    (lit "nearbyOpportunities", lit "Nearby Opportunities");
    (lit "profile", lit "Profile");
    (lit "logout", lit "Logout");
    (lit "getRecommendations", lit "Get AI Career Recommendations");
    (lit "interests", lit "Interests");
    (lit "academicLevel", lit "Academic Level");
    (lit "subjects", lit "Subjects");
    (lit "strengths", lit "Strengths");
    (lit "submit", lit "Submit");
    (lit "loading", lit "Loading...");
    (lit "error", lit "Error occurred");
    (lit "success", lit "Success!");
    (lit "language", lit "Language") ].

Definition translations_hi : list (jsstring * jsstring) :=
  [
    (lit "welcome",
       [2319; 2337; 2369; 2346; 2366; 2341; 32; 2350; 2375; 2306; 32;
       2310; 2346; 2325; 2366; 32; 2360; 2381; 2357; 2366; 2327; 2340;
       32; 2361; 2376]%N);
    (lit "tagline",
       [2310; 2346; 2325; 2366; 32; 2357; 2381; 2351; 2325; 2381; 2340;
       2367; 2327; 2340; 32; 2325; 2352; 2367; 2351; 2352; 32; 2324;
       2352; 32; 2358; 2367; 2325; 2381; 2359; 2366; 32; 2360; 2354;
       2366; 2361; 2325; 2366; 2352; 32; 2350; 2306; 2330]%N);
    (lit "login", [2354; 2377; 2327; 2367; 2344]%N);
    (lit "register", [2346; 2306; 2332; 2368; 2325; 2352; 2339]%N);
    (lit "email", [2312; 2350; 2375; 2354]%N);
    (lit "password", [2346; 2366; 2360; 2357; 2352; 2381; 2337]%N);
    (lit "fullName", [2346; 2370; 2352; 2366; 32; 2344; 2366; 2350]%N);
    (lit "phone", [2347; 2379; 2344; 32; 2344; 2306; 2348; 2352]%N);
    (lit "role", [2349; 2370; 2350; 2367; 2325; 2366]%N);
    (lit "student", [2331; 2366; 2340; 2381; 2352]%N);
    (lit "parent", [2309; 2349; 2367; 2349; 2366; 2357; 2325]%N);
    (lit "counselor", [2360; 2354; 2366; 2361; 2325; 2366; 2352]%N);
    (lit "admin",
       [2357; 2381; 2351; 2357; 2360; 2381; 2341; 2366; 2346; 2325]%N);
    (lit "dashboard", [2337; 2376; 2358; 2348; 2379; 2352; 2381; 2337]%N);
    (lit "careerRecommendations",
       [2325; 2352; 2367; 2351; 2352; 32; 2360; 2369; 2333; 2366; 2357]%N);
    (lit "scholarships",
       [2331; 2366; 2340; 2381; 2352; 2357; 2371; 2340; 2381; 2340;
       2367]%N);
    (lit "nearbyOpportunities",
       [2310; 2360; 2346; 2366; 2360; 32; 2325; 2375; 32; 2309; 2357;
       2360; 2352]%N);
    (lit "profile", [2346; 2381; 2352; 2379; 2347; 2366; 2311; 2354]%N);
    (lit "logout", [2354; 2377; 2327; 2310; 2313; 2335]%N);
    (lit "getRecommendations",
       [65; 73; 32; 2325; 2352; 2367; 2351; 2352; 32; 2360; 2369; 2333;
       2366; 2357; 32; 2346; 2381; 2352; 2366; 2346; 2381; 2340; 32;
       2325; 2352; 2375; 2306]%N);
    (lit "interests", [2352; 2369; 2330; 2367; 2351; 2366; 2306]%N);
    (lit "academicLevel",
       [2358; 2376; 2325; 2381; 2359; 2339; 2367; 2325; 32; 2360; 2381;
       2340; 2352]%N);
    (lit "subjects", [2357; 2367; 2359; 2351]%N);
    (lit "strengths", [2358; 2325; 2381; 2340; 2367; 2351; 2366; 2306]%N);
    (lit "submit", [2332; 2350; 2366; 32; 2325; 2352; 2375; 2306]%N);
    (lit "loading",
       [2354; 2379; 2337; 32; 2361; 2379; 32; 2352; 2361; 2366; 32; 2361;
       2376; 46; 46; 46]%N);
    (lit "error",
       [2340; 2381; 2352; 2369; 2335; 2367; 32; 2361; 2369; 2312]%N);
    (lit "success", [2360; 2347; 2354; 33]%N);
    (lit "language", [2349; 2366; 2359; 2366]%N) ].

Definition translations_ks : list (jsstring * jsstring) :=
  [
    (lit "welcome",
       [1575; 1740; 1672; 1608; 1662; 1575; 1578; 1726; 32; 1605; 1740;
       1722; 32; 1578; 1729; 1606; 1586; 32; 1570; 1605; 1583; 1740;
       1583]%N);
    (lit "tagline",
       [1578; 1729; 1606; 1583; 32; 1584; 1575; 1578; 1740; 32; 1705;
       1740; 1585; 1740; 1574; 1585; 32; 1578; 1729; 32; 1578; 1593;
       1604; 1740; 1605; 1740; 32; 1605; 1588; 1575; 1608; 1585; 1578;
       1740; 32; 1662; 1604; 1740; 1657; 32; 1601; 1575; 1585; 1605]%N);
    (lit "login", [1604; 1575; 1711; 32; 1575; 1606]%N);
    (lit "register", [1585; 1580; 1587; 1657; 1585]%N);
    (lit "email", [1575; 1740; 32; 1605; 1740; 1604]%N);
    (lit "password", [1662; 1575; 1587; 32; 1608; 1585; 1672]%N);
    (lit "fullName", [1605; 1705; 1605; 1604; 32; 1606; 1575; 1608]%N);
    (lit "phone", [1601; 1608; 1606; 32; 1606; 1605; 1576; 1585]%N);
    (lit "role", [1705; 1585; 1583; 1575; 1585]%N);
    (lit "student", [1591; 1575; 1604; 1576; 32; 1593; 1604; 1605]%N);
    (lit "parent", [1608; 1575; 1604; 1583; 1740; 1606]%N);
    (lit "counselor", [1605; 1588; 1740; 1585]%N);
    (lit "admin", [1605; 1606; 1578; 1592; 1605]%N);
    (lit "dashboard", [1672; 1740; 1588; 32; 1576; 1608; 1585; 1672]%N);
    (lit "careerRecommendations",
       [1705; 1740; 1585; 1740; 1574; 1585; 32; 1578; 1580; 1575; 1608;
       1740; 1586]%N);
    (lit "scholarships", [1608; 1592; 1575; 1574; 1601]%N);
    (lit "nearbyOpportunities",
       [1602; 1585; 1740; 1576; 1740; 32; 1605; 1608; 1575; 1602; 1593]%N);
    (lit "profile", [1662; 1585; 1608; 1601; 1575; 1574; 1604]%N);
    (lit "logout", [1604; 1575; 1711; 32; 1570; 1572; 1657]%N);
    (lit "getRecommendations",
       [65; 73; 32; 1705; 1740; 1585; 1740; 1574; 1585; 32; 1578; 1580;
       1575; 1608; 1740; 1586; 32; 1581; 1575; 1589; 1604; 32; 1705;
       1585; 1740; 1722]%N);
    (lit "interests", [1583; 1604; 1670; 1587; 1662; 1740; 1575; 1722]%N);
    (lit "academicLevel",
       [1578; 1593; 1604; 1740; 1605; 1740; 32; 1587; 1591; 1581]%N);
    (lit "subjects", [1605; 1590; 1575; 1605; 1740; 1606]%N);
    (lit "strengths", [1589; 1604; 1575; 1581; 1740; 1578; 1740; 1722]%N);
    (lit "submit", [1580; 1605; 1593; 32; 1705; 1585; 1740; 1722]%N);
    (lit "loading",
       [1604; 1608; 1672; 32; 1729; 1608; 32; 1585; 1729; 1575; 32; 1729;
       1746; 46; 46; 46]%N);
    (lit "error",
       [1582; 1585; 1575; 1576; 1740; 32; 1729; 1608; 1574; 1740]%N);
    (lit "success", [1705; 1575; 1605; 1740; 1575; 1576; 33]%N);
    (lit "language", [1586; 1576; 1575; 1606]%N) ].

(** [translations] *)
Definition translations : list (jsstring * list (jsstring * jsstring)) :=
  [ (lit "en", translations_en); (lit "hi", translations_hi);
    (lit "ks", translations_ks) ].

(** [object[key]] for a key that the object itself defines or that no
    object defines; the names that every object inherits are left out. *)
Fixpoint property {A} (key : jsstring) (object : list (jsstring * A))
  : option A :=
  match object with
  | [] => None
  | (k, x) :: rest => if JS.eqb key k then Some x else property key rest
  end.

(** [t]: [translations[currentLanguage][key] || key].  The result is
    [None] when [translations[currentLanguage]] is undefined and the
    lookup of [key] in it throws. *)
Definition t (currentLanguage key : jsstring) : option jsstring :=
  match property currentLanguage translations with
  | None => None
  | Some table => Some (or_default (property key table) key)
  end.

(** The keys that the components pass to [t]. *)
Definition keys_used : list jsstring :=
  [ lit "academicLevel"; lit "admin"; lit "careerRecommendations"; lit
    "counselor"; lit "dashboard"; lit "email"; lit "fullName"; lit
    "getRecommendations"; lit "interests"; lit "language"; lit "login";
    lit "logout"; lit "nearbyOpportunities"; lit "optional"; lit "parent";
    lit "password"; lit "phone"; lit "profile"; lit "register"; lit
    "role"; lit "scholarships"; lit "strengths"; lit "student"; lit
    "subjects"; lit "tagline"; lit "welcome" ].

Lemma eqb_true a b : JS.eqb a b = true -> a = b.
Proof. unfold JS.eqb. now destruct (list_eq_dec N.eq_dec a b). Qed.

Lemma existsb_eqb_In a l : existsb (JS.eqb a) l = true -> In a l.
Proof.
  intros H. apply existsb_exists in H as [x [Hin He]].
  apply eqb_true in He. now subst.
Qed.

End I18n.

(** ** More invariants of the application *)

Module AppFacts.
Import JS.

(** One of the three codes of [languages]. *)
Definition valid_language (l : jsstring) : bool :=
  existsb (JS.eqb l) App.language_codes.

Arguments valid_language : simpl never.

(** An identity whose preferred language, if it has one, is one of the
    three codes. *)
Definition lang_ok (u : App.UserIdentity) : bool :=
  match App.preferred_language u with
  | None => true
  | Some l => negb (truthy l) || valid_language l
  end.

Definition event_ok (ev : App.Event) : bool :=
  match ev with
  | App.VerifyFulfilled u => lang_ok u
  | App.AuthFulfilled _ _ u => lang_ok u
  | _ => true
  end.

(** The states reached when the server only returns such identities. *)
Inductive reachable_ok : App.World -> Prop :=
| ok_start stored : reachable_ok (App.start stored)
| ok_step w ev w' :
    reachable_ok w -> event_ok ev = true -> App.step w ev = Some w' ->
    reachable_ok w'.

Definition translated (lang key : jsstring) : bool :=
  match I18n.t lang key with
  | Some s => truthy s
  | None => false
  end.

Ltac app_cases w ev Hs :=
  destruct w as [[tk0 au0] [u0 ld0 am0 cl0] m0 v0 rq0]; simpl in *;
  destruct ev; cbn in Hs;
  [ destruct m0; [discriminate Hs|]; unfold App.startup in Hs; simpl in Hs;
    destruct tk0 as [tok0|]; [destruct (truthy tok0) eqn:?|];
    injection Hs as <-
  | destruct v0; [|discriminate Hs]; injection Hs as <-
  | destruct v0; [|discriminate Hs]; injection Hs as <-
  | destruct (negb ld0 && _) eqn:?; [|discriminate Hs]; injection Hs as <-
  | destruct (App.screen _) eqn:?; try discriminate Hs; injection Hs as <-
  | destruct (App.screen _) eqn:?; try discriminate Hs; injection Hs as <-
  | destruct (App.screen _) eqn:?; try discriminate Hs; injection Hs as <-
  | destruct (App.screen _) eqn:?; try discriminate Hs; injection Hs as <-
  | destruct (App.awaited _ _) eqn:?; [|discriminate Hs]; injection Hs as <-
  | destruct (App.awaited _ _) eqn:?; [|discriminate Hs]; injection Hs as <-
  | destruct (App.screen _) eqn:?; try discriminate Hs; injection Hs as <- ].

Lemma reachable_ok_reachable w : reachable_ok w -> App.reachable w.
Proof.
  induction 1 as [stored|w ev w' _ IH _ Hs]; [apply App.reach_start|].
  exact (App.reach_step _ _ _ IH Hs).
Qed.

(** No event sets the loading flag. *)
Lemma loading_stays_false w ev w' :
  App.step w ev = Some w' ->
  App.loading (App.app w) = false -> App.loading (App.app w') = false.
Proof.
  intros Hs. app_cases w ev Hs; simpl; auto.
Qed.

(** The spinner is shown only before the start-up effect has run and
    while the stored token is verified. *)
Lemma loading_cases w :
  App.reachable w -> App.loading (App.app w) = true ->
  App.mounted w = false \/ App.verifying w = true.
Proof.
  induction 1 as [stored|w ev w' _ IH Hs]; [now left|].
  app_cases w ev Hs; simpl; auto; discriminate.
Qed.

Lemma loading_authMode w :
  App.reachable w -> App.loading (App.app w) = true ->
  App.authMode (App.app w) = None.
Proof.
  induction 1 as [stored|w ev w' _ IH Hs]; [reflexivity|].
  app_cases w ev Hs; simpl; auto;
    intros Hl; subst; cbn in *; discriminate.
Qed.

Lemma or_default_ok u :
  lang_ok u = true ->
  valid_language (or_default (App.preferred_language u) (lit "en")) = true.
Proof.
  unfold lang_ok, or_default.
  destruct (App.preferred_language u) as [l|]; [|reflexivity].
  destruct (truthy l); simpl; [auto|reflexivity].
Qed.

(** The active language is one of the three codes. *)
Lemma language_reachable w :
  reachable_ok w ->
  valid_language (App.currentLanguage (App.app w)) = true.
Proof.
  induction 1 as [stored|w ev w' _ IH Hok Hs]; [reflexivity|].
  app_cases w ev Hs; simpl in *; auto using or_default_ok.
  match goal with
  | H : (_ && _) = true |- _ => apply andb_prop in H as [_ H]; exact H
  end.
Qed.

Lemma all_translated :
  forallb (fun lang => forallb (translated lang) I18n.keys_used)
    App.language_codes = true.
Proof. vm_compute. reflexivity. Qed.

End AppFacts.

(** * Properties *)

Import JS.

(** ** Normalisation of the comma-separated fields *)

(** C4: for every raw string, [normalize] cuts it at its commas (the
    segments joined by commas give the raw string back and hold no comma),
    trims every segment and keeps, in their order, the trimmed segments
    that are not blank; so every entry of the result is non-empty, is not
    made of white space only, neither starts nor ends with white space and
    holds no comma; no entry of the four lists of [requestData] is empty
    or blank.
    The input ["Math,  , Physics ,"] gives [["Math"; "Physics"]]. *)
Theorem C4_normalize_contract (raw : jsstring) :
  (join comma (split comma raw) = raw /\
   forall seg, In seg (split comma raw) -> ~ In comma seg) /\
  normalize raw =
    map trim (filter (fun s => negb (blank s)) (split comma raw)) /\
  (forall s, In s (normalize raw) ->
     s <> [] /\ blank s = false /\ is_ws (hd 0%N s) = false /\
     is_ws (last s 0%N) = false /\ ~ In comma s) /\
  (forall f s,
     In s (Reco.req_interests (Reco.requestData f)) \/
     In s (Reco.req_subjects (Reco.requestData f)) \/
     In s (Reco.req_strengths (Reco.requestData f)) \/
     In s (Reco.req_career_goals (Reco.requestData f)) ->
     s <> [] /\ blank s = false) /\
  normalize (lit "Math,  , Physics ,") = [lit "Math"; lit "Physics"].
Proof.
  split; [split|split; [|split; [|split]]].
  - apply join_split.
  - intros seg. apply split_no_sep.
  - unfold normalize. apply filter_map_trim.
  - intros s. apply Reco.normalize_nonblank.
  - intros f s H. simpl in H.
    destruct H as [H|[H|[H|H]]];
      apply Reco.normalize_nonblank in H; tauto.
  - vm_compute. reflexivity.
Qed.

(** ** Recommendation workflow *)

Definition sample_result (title : string) (pct : Z) : Reco.RecommendationResult :=
  Reco.mkResult (lit title) pct (lit "") (lit "") (lit "") [] (lit "") (lit "").

Definition three_results : list Reco.RecommendationResult :=
  [sample_result "Engineer" 90; sample_result "Teacher" 80;
   sample_result "Designer" 70].

(** A form that shows three results and is not busy. *)
Definition showing_three : Reco.Instance :=
  Reco.mkInstance (Reco.mkComponent false three_results Reco.initialFormData) 0.

(** The form after a submission that the server has not answered yet. *)
Definition submitting : Reco.Instance :=
  Reco.mkInstance (Reco.mkComponent true [] Reco.initialFormData) 1.

Lemma showing_three_reachable : Reco.reachable showing_three.
Proof.
  eapply Reco.reach_step with (ev := Reco.Fulfilled three_results);
    [eapply Reco.reach_step with (ev := Reco.Submit);
       [apply Reco.reach_start | reflexivity]
    | reflexivity].
Qed.

Lemma submitting_reachable : Reco.reachable submitting.
Proof.
  eapply Reco.reach_step with (ev := Reco.Submit);
    [apply Reco.reach_start | reflexivity].
Qed.

(** C2, as stated, fails: after a failed submission the three results are
    still shown, but nothing visible is added; the view is the one that
    was shown before the submission. *)
Lemma C2_counterexample :
  ~ (forall w1 w2 es1 es2,
       Reco.step showing_three Reco.Submit = Some (w1, es1) ->
       Reco.step w1 Reco.Rejected = Some (w2, es2) ->
       Reco.recommendations (Reco.ui w2) = three_results /\
       Reco.render (Reco.ui w2) <> Reco.render (Reco.ui showing_three)).
Proof.
  intros H.
  destruct (H _ _ _ _ eq_refl eq_refl) as [_ Hdiff].
  apply Hdiff. reflexivity.
Qed.

(** C2, amended: from a form that is not busy, a submission posts one
    request; if the request fails the result list is unchanged, the error
    is written to the console only and the view is the one shown before
    the submission; if the request succeeds the result list is the list of
    the response, whatever the list was before. *)
Theorem C2_replace_on_success_keep_on_failure (w : Reco.Instance) :
  Reco.loading (Reco.ui w) = false ->
  exists w1,
    Reco.step w Reco.Submit =
      Some (w1, [Reco.Post "/career/recommendations"
                   (Reco.requestData (Reco.formData (Reco.ui w)))]) /\
    (exists w2,
       Reco.step w1 Reco.Rejected =
         Some (w2, [Reco.ConsoleError "Error getting recommendations:"]) /\
       Reco.recommendations (Reco.ui w2) = Reco.recommendations (Reco.ui w) /\
       Reco.render (Reco.ui w2) = Reco.render (Reco.ui w)) /\
    (forall recs, exists w3,
       Reco.step w1 (Reco.Fulfilled recs) = Some (w3, []) /\
       Reco.recommendations (Reco.ui w3) = recs /\
       Reco.loading (Reco.ui w3) = false).
Proof.
  destruct w as [[ld recs0 f] n]. simpl. intros ->.
  eexists. split; [reflexivity|]. split.
  - eexists. split; [|split]; reflexivity.
  - intros recs. eexists. split; [|split]; reflexivity.
Qed.

Lemma C2_witness :
  Reco.loading (Reco.ui showing_three) = false /\
  exists w1,
    Reco.step showing_three Reco.Submit =
      Some (w1, [Reco.Post "/career/recommendations"
                   (Reco.requestData (Reco.formData (Reco.ui showing_three)))]) /\
    (exists w2,
       Reco.step w1 Reco.Rejected =
         Some (w2, [Reco.ConsoleError "Error getting recommendations:"]) /\
       Reco.recommendations (Reco.ui w2) = three_results /\
       Reco.render (Reco.ui w2) = Reco.render (Reco.ui showing_three)) /\
    (forall recs, exists w3,
       Reco.step w1 (Reco.Fulfilled recs) = Some (w3, []) /\
       Reco.recommendations (Reco.ui w3) = recs /\
       Reco.loading (Reco.ui w3) = false).
Proof.
  split; [reflexivity|].
  apply (C2_replace_on_success_keep_on_failure showing_three). reflexivity.
Defined.

(** C3: in every reachable state of a form instance at most one request
    is in flight, and while the busy flag is set a submit attempt changes
    nothing and issues no request. *)
Theorem C3_one_request_in_flight (w : Reco.Instance) :
  Reco.reachable w ->
  (Reco.in_flight w <= 1)%nat /\
  (Reco.loading (Reco.ui w) = true ->
   Reco.step w Reco.Submit = Some (w, [])).
Proof.
  intros Hr. pose proof (Reco.busy_inv_reachable w Hr) as Hb.
  unfold Reco.busy_inv in Hb. split.
  - destruct (Reco.loading (Reco.ui w)); lia.
  - intros Hl. destruct w as [c n]. simpl in *.
    unfold Reco.step, Reco.submitButton. simpl. rewrite Hl.
    reflexivity.
Qed.

Lemma C3_witness :
  Reco.reachable submitting /\
  (Reco.in_flight submitting <= 1)%nat /\
  (Reco.loading (Reco.ui submitting) = true ->
   Reco.step submitting Reco.Submit = Some (submitting, [])).
Proof.
  split; [exact submitting_reachable|].
  apply (C3_one_request_in_flight submitting). exact submitting_reachable.
Defined.

(** C10: in every reachable state of the form [career_goals] is the empty
    string, as it was initialised; the empty string normalises to the
    empty list; so a request that the form posts has the empty list as
    [career_goals]. *)
Theorem C10_career_goals_empty (w : Reco.Instance) :
  Reco.reachable w ->
  Reco.career_goals (Reco.formData (Reco.ui w)) = lit "" /\
  normalize (lit "") = [] /\
  forall ev w' es path req,
    Reco.step w ev = Some (w', es) ->
    In (Reco.Post path req) es ->
    Reco.req_career_goals req = [].
Proof.
  intros Hr. pose proof (Reco.career_goals_reachable w Hr) as Hg.
  split; [exact Hg|]. split; [reflexivity|].
  intros ev w' es path req Hs Hin.
  destruct w as [c n]. simpl in Hg.
  destruct ev; simpl in Hs;
    try (injection Hs as <- <-; destruct Hin).
  - unfold Reco.submitButton in Hs. destruct (Reco.loading c).
    + injection Hs as <- <-. destruct Hin.
    + injection Hs as <- <-. destruct Hin as [Heq|[]].
      injection Heq as <- <-. simpl. now rewrite Hg.
  - destruct n; [discriminate|]. injection Hs as <- <-. destruct Hin.
  - destruct n; [discriminate|]. injection Hs as <- <-.
    destruct Hin as [Heq|[]]. discriminate.
Qed.

(** A form in which the user has typed an interest. *)
Definition typed : Reco.Instance :=
  Reco.mkInstance
    (Reco.mkComponent false []
       (Reco.mkFormData (lit "Art, Science") (lit "12th") (lit "") (lit "")
          (lit ""))) 0.

Lemma typed_reachable : Reco.reachable typed.
Proof.
  eapply Reco.reach_step with (ev := Reco.ChangeInterests (lit "Art, Science"));
    [apply Reco.reach_start | reflexivity].
Qed.

Lemma C10_witness :
  Reco.reachable typed /\
  Reco.step typed Reco.Submit =
    Some (Reco.mkInstance (Reco.setLoading true (Reco.ui typed)) 1,
          [Reco.Post "/career/recommendations"
             (Reco.mkRequest [lit "Art"; lit "Science"] (lit "12th") [] [] [])]) /\
  Reco.req_career_goals
    (Reco.mkRequest [lit "Art"; lit "Science"] (lit "12th") [] [] []) = [].
Proof.
  split; [exact typed_reachable|]. split; [reflexivity|].
  apply (proj2 (proj2 (C10_career_goals_empty typed typed_reachable))
           Reco.Submit
           (Reco.mkInstance (Reco.setLoading true (Reco.ui typed)) 1)
           [Reco.Post "/career/recommendations"
              (Reco.mkRequest [lit "Art"; lit "Science"] (lit "12th") [] [] [])]
           "/career/recommendations"%string
           (Reco.mkRequest [lit "Art"; lit "Science"] (lit "12th") [] [] [])).
  - reflexivity.
  - left. reflexivity.
Defined.

(** ** Dashboard data loader *)

Definition sample_stats : Dash.Stats := [("recommendations_received"%string, 3%Z)].

Definition sample_opportunity : Dash.Opportunity :=
  Dash.mkOpportunity (lit "1") (lit "College") (lit "College") (lit "2 km")
    (lit "4.5") (lit "Srinagar") [lit "BSc"] (lit "0194").

(** The scholarships request fails, the two others succeed. *)
Definition scholarships_fail : Dash.Outcomes :=
  Dash.mkOutcomes (Some sample_stats) None (Some [sample_opportunity]).

Definition stats_first : list Dash.Fetch :=
  [Dash.GetStats; Dash.GetOpportunities; Dash.GetScholarships].

(** C1, as stated, fails: when only the scholarships request fails, the
    statistics and the opportunities that were received are not applied. *)
Lemma C1_counterexample :
  ~ (Dash.stats (fst (Dash.fetchDashboardData scholarships_fail stats_first
                        Dash.initial)) = sample_stats /\
     Dash.opportunities (fst (Dash.fetchDashboardData scholarships_fail
                                stats_first Dash.initial))
     = [sample_opportunity]).
Proof. intros [H _]. discriminate H. Qed.

(** C1, amended: in whatever order the three requests complete, if all
    three succeed the three results are applied, and if one of them fails
    none is applied: the statistics, the scholarships and the
    opportunities keep the values they had, and the error is written to
    the console. *)
Theorem C1_all_or_nothing (o : Dash.Outcomes) (order : list Dash.Fetch)
  (c : Dash.Component) :
  Dash.each_once order = true ->
  (forall s sc op,
     Dash.stats_res o = Some s -> Dash.scholarships_res o = Some sc ->
     Dash.opportunities_res o = Some op ->
     Dash.fetchDashboardData o order c =
       (Dash.mkComponent (Dash.activeTab c) s sc op, [])) /\
  (Dash.stats_res o = None \/ Dash.scholarships_res o = None \/
   Dash.opportunities_res o = None ->
   Dash.fetchDashboardData o order c =
     (c, [Dash.ConsoleError "Error fetching dashboard data:"])).
Proof.
  intros H. rewrite (Dash.fetchDashboardData_all_or_nothing o order c H).
  split.
  - intros s sc op -> -> ->. reflexivity.
  - intros [->|[E|E]].
    + reflexivity.
    + rewrite E. now destruct (Dash.stats_res o).
    + rewrite E. now destruct (Dash.stats_res o), (Dash.scholarships_res o).
Qed.

Lemma C1_witness :
  Dash.each_once stats_first = true /\
  Dash.fetchDashboardData scholarships_fail stats_first Dash.initial =
    (Dash.initial, [Dash.ConsoleError "Error fetching dashboard data:"]).
Proof.
  split; [reflexivity|].
  apply (C1_all_or_nothing scholarships_fail stats_first Dash.initial);
    [reflexivity | right; left; reflexivity].
Defined.

(** ** Validation of the authentication form *)

(** C7: when a login or registration input breaks one of the local rules
    (an e-mail address that zod refuses, a password shorter than 6, and on
    registration a full name shorter than 2 or a role outside the four
    roles), the form posts nothing and sets, for the field that breaks the
    rule, the message of the schema; there is at most one message for a
    field. *)
Theorem C7_validation_before_network
  (is_email : jsstring -> bool) (required_error : string)
  (invalid_enum_error : list jsstring -> jsstring -> string)
  (isLogin : bool) (v : AuthForm.Values) (c : AuthForm.Component)
  (f : AuthForm.Field) :
  AuthForm.violates is_email isLogin v f = true ->
  let r := AuthForm.handleSubmit is_email required_error invalid_enum_error
             isLogin v c in
  snd r = [] /\
  NoDup (map fst (AuthForm.errors (fst r))) /\
  exists msg,
    AuthForm.lookup f (AuthForm.errors (fst r)) = Some msg /\
    match f with
    | AuthForm.email => msg = "Invalid email address"%string
    | AuthForm.password => msg = "Password must be at least 6 characters"%string
    | AuthForm.full_name => msg = "Full name must be at least 2 characters"%string
    | AuthForm.role =>
        exists s, AuthForm.v_role v = Some s /\
                  msg = invalid_enum_error AuthForm.roles s
    | _ => False
    end.
Proof.
  intros Hv r.
  set (sc := AuthForm.schema isLogin).
  set (errs := AuthForm.resolver is_email required_error invalid_enum_error sc v).
  assert (Hnd : NoDup (map fst sc)) by apply AuthForm.schema_NoDup.
  assert (Hmsg : exists msg, AuthForm.lookup f errs = Some msg /\
            match f with
            | AuthForm.email => msg = "Invalid email address"%string
            | AuthForm.password =>
                msg = "Password must be at least 6 characters"%string
            | AuthForm.full_name =>
                msg = "Full name must be at least 2 characters"%string
            | AuthForm.role =>
                exists s, AuthForm.v_role v = Some s /\
                          msg = invalid_enum_error AuthForm.roles s
            | _ => False
            end).
  { unfold errs.
    destruct f; simpl in Hv; try discriminate.
    - destruct (AuthForm.v_email v) as [s|] eqn:E; [|discriminate].
      apply negb_true_iff in Hv.
      eexists. split.
      + erewrite AuthForm.resolver_lookup with
          (t := AuthForm.ZString [AuthForm.Email "Invalid email address"]);
          [|exact Hnd|destruct isLogin; simpl; auto].
        simpl. rewrite E. simpl. rewrite Hv. reflexivity.
      + reflexivity.
    - destruct (AuthForm.v_password v) as [s|] eqn:E; [|discriminate].
      eexists. split.
      + erewrite AuthForm.resolver_lookup with
          (t := AuthForm.ZString
                  [AuthForm.Min 6 "Password must be at least 6 characters"]);
          [|exact Hnd|destruct isLogin; simpl; auto].
        simpl. rewrite E. simpl. rewrite Hv. reflexivity.
      + reflexivity.
    - destruct isLogin; [discriminate|]. simpl in Hv.
      destruct (AuthForm.v_full_name v) as [s|] eqn:E; [|discriminate].
      eexists. split.
      + erewrite AuthForm.resolver_lookup with
          (t := AuthForm.ZString
                  [AuthForm.Min 2 "Full name must be at least 2 characters"]);
          [|exact Hnd|simpl; auto].
        simpl. rewrite E. simpl. rewrite Hv. reflexivity.
      + reflexivity.
    - destruct isLogin; [discriminate|]. simpl in Hv.
      destruct (AuthForm.v_role v) as [s|] eqn:E; [|discriminate].
      apply negb_true_iff in Hv.
      eexists. split.
      + erewrite AuthForm.resolver_lookup with
          (t := AuthForm.ZEnum AuthForm.roles);
          [|exact Hnd|simpl; auto].
        simpl. rewrite E. rewrite Hv. reflexivity.
      + exists s. split; reflexivity. }
  assert (Hr : r = (AuthForm.mkComponent (AuthForm.loading c)
                      (AuthForm.error c) errs, [])).
  { unfold r, AuthForm.handleSubmit. fold sc. fold errs.
    destruct errs as [|e es] eqn:Ee; [|reflexivity].
    destruct Hmsg as [msg [Hl _]]. discriminate Hl. }
  rewrite Hr. simpl. split; [reflexivity|]. split; [|exact Hmsg].
  apply AuthForm.resolver_NoDup. exact Hnd.
Qed.

(** A stand-in for zod's test of an e-mail address: the string holds [@]. *)
Definition has_at (s : jsstring) : bool := existsb (N.eqb 64) s.

Definition short_password : AuthForm.Values :=
  AuthForm.mkValues (Some (lit "a@b.in")) (Some (lit "abc"))
    (Some (lit "Asha")) (Some (lit "student")) (Some (lit ""))
    (Some (lit "en")).

Lemma C7_witness :
  AuthForm.violates has_at false short_password AuthForm.password = true /\
  AuthForm.handleSubmit has_at "Required" (fun _ _ => "Invalid enum value"%string)
    false short_password (AuthForm.mkComponent false (lit "") [])
  = (AuthForm.mkComponent false (lit "")
       [(AuthForm.password, "Password must be at least 6 characters"%string)],
     []) /\
  snd (AuthForm.handleSubmit has_at "Required"
         (fun _ _ => "Invalid enum value"%string)
         false short_password (AuthForm.mkComponent false (lit "") [])) = [].
Proof.
  split; [reflexivity|]. split; [reflexivity|].
  apply (C7_validation_before_network has_at "Required"
           (fun _ _ => "Invalid enum value"%string) false short_password
           (AuthForm.mkComponent false (lit "") []) AuthForm.password).
  reflexivity.
Defined.

(** ** Session and application context *)

Definition sample_token : jsstring := lit "abc.def.ghi".

Definition sample_user : App.UserIdentity :=
  App.mkUser (lit "u1") (lit "Asha") (lit "asha@example.in") (lit "student")
    (Some (lit "hi")).

(** The page was loaded with a stored token and [/auth/me] is awaited. *)
Definition verifying_world : App.World :=
  App.mkWorld (App.mkSession (Some sample_token) (Some (App.bearer sample_token)))
    App.initial true true [].

(** A signed-in user who has chosen Kashmiri in the language selector. *)
Definition signed_in : App.World :=
  App.mkWorld (App.mkSession (Some sample_token) (Some (App.bearer sample_token)))
    (App.mkComponent (Some sample_user) false None (lit "ks")) true false [].

Lemma verifying_world_reachable : App.reachable verifying_world.
Proof.
  eapply App.reach_step with (ev := App.Mount);
    [apply (App.reach_start (Some sample_token)) | reflexivity].
Qed.

Lemma signed_in_reachable : App.reachable signed_in.
Proof.
  eapply App.reach_step with (ev := App.SelectLanguage (lit "ks"));
    [eapply App.reach_step with (ev := App.VerifyFulfilled sample_user);
       [exact verifying_world_reachable | reflexivity]
    | reflexivity].
Qed.

(** C5, as stated, fails: while the stored token is being verified it is
    attached to the requests and there is no identity yet, although the
    token is one that the server goes on to accept. *)
Lemma C5_counterexample :
  App.reachable verifying_world /\
  (exists w', App.step verifying_world (App.VerifyFulfilled sample_user) = Some w' /\
              App.user (App.app w') = Some sample_user) /\
  ~ (App.user (App.app verifying_world) <> None <->
     App.authorization (App.session verifying_world) <> None).
Proof.
  split; [exact verifying_world_reachable|]. split.
  - eexists. split; reflexivity.
  - intros [_ H]. apply H; [discriminate|reflexivity].
Qed.

(** C5, amended: in every reachable state an authorization default that
    is attached carries the persisted token, and an identity that is
    present comes with an attached credential; once the start-up load is
    over (the loading flag is false) the identity is present if and only
    if a credential is attached.  Login success and registration success
    set the persisted token and the authorization default from the new
    token in the step that sets the identity; verify failure and logout
    remove both in the step that leaves the identity absent; the start-up
    effect only attaches the token that is stored, and no other event
    touches either of them. *)
Theorem C5_credential_consistency (w : App.World) :
  App.reachable w ->
  (forall h, App.authorization (App.session w) = Some h ->
     exists tok, App.token (App.session w) = Some tok /\ h = App.bearer tok) /\
  (App.user (App.app w) <> None ->
   App.authorization (App.session w) <> None) /\
  (App.loading (App.app w) = false ->
   (App.user (App.app w) <> None <->
    App.authorization (App.session w) <> None)) /\
  (forall ev w', App.step w ev = Some w' ->
     match ev with
     | App.AuthFulfilled _ tok u =>
         App.token (App.session w') = Some tok /\
         App.authorization (App.session w') = Some (App.bearer tok) /\
         App.user (App.app w') = Some u
     | App.VerifyRejected | App.Logout =>
         App.token (App.session w') = None /\
         App.authorization (App.session w') = None /\
         App.user (App.app w') = None
     | App.Mount =>
         App.token (App.session w') = App.token (App.session w) /\
         (App.authorization (App.session w') = None \/
          exists tok, App.token (App.session w) = Some tok /\
            App.authorization (App.session w') = Some (App.bearer tok))
     | _ => App.session w' = App.session w
     end).
Proof.
  intros Hr. destruct (App.Inv_reachable w Hr) as [I1 I2 I3 I4 I5 I6].
  split; [exact I4|]. split; [exact I5|]. split.
  - intros Hl. split; [exact I5|].
    intros Hau. destruct (App.user (App.app w)) eqn:Eu; [discriminate|].
    specialize (I6 eq_refl Hau). destruct (I3 I6) as [Hl' _]. congruence.
  - intros ev w' Hs.
    destruct w as [[tk au] [u ld am cl] m v rq]. simpl in *.
    destruct ev; cbn in Hs.
    + destruct m; [discriminate|]. destruct (I1 eq_refl) as [-> _].
      unfold App.startup in Hs. simpl in Hs.
      destruct tk as [tok|]; [destruct (truthy tok)|];
        injection Hs as <-; simpl; split; auto.
      right. exists tok. auto.
    + destruct v; [|discriminate]. injection Hs as <-. reflexivity.
    + destruct v; [|discriminate]. injection Hs as <-. simpl.
      destruct (I3 eq_refl) as [-> _]. destruct (I2 eq_refl) as [-> _]. auto.
    + destruct (negb ld && _); [|discriminate]. injection Hs as <-. reflexivity.
    + destruct (App.screen _); try discriminate. injection Hs as <-. reflexivity.
    + destruct (App.screen _); try discriminate. injection Hs as <-. reflexivity.
    + destruct (App.screen _); try discriminate. injection Hs as <-. reflexivity.
    + destruct (App.screen _); try discriminate. injection Hs as <-. reflexivity.
    + destruct (App.awaited isLogin rq); [|discriminate]. injection Hs as <-.
      simpl. auto.
    + destruct (App.awaited isLogin rq); [|discriminate]. injection Hs as <-.
      reflexivity.
    + destruct (App.screen _); try discriminate. injection Hs as <-.
      simpl. auto.
Qed.

Lemma C5_witness :
  App.reachable signed_in /\
  (App.user (App.app signed_in) <> None <->
   App.authorization (App.session signed_in) <> None).
Proof.
  split; [exact signed_in_reachable|].
  apply (C5_credential_consistency signed_in signed_in_reachable).
  reflexivity.
Defined.

(** C6: on the dashboard, logout removes the identity, the persisted
    token and the authorization default, and leaves the selected language
    as it was. *)
Theorem C6_logout_keeps_language (w : App.World) (u : App.UserIdentity) :
  App.screen (App.app w) = App.DashboardScreen u ->
  exists w',
    App.step w App.Logout = Some w' /\
    App.user (App.app w') = None /\
    App.token (App.session w') = None /\
    App.authorization (App.session w') = None /\
    App.currentLanguage (App.app w') = App.currentLanguage (App.app w).
Proof.
  intros Hs. unfold App.step. rewrite Hs. simpl.
  eexists. split; [reflexivity|]. simpl. auto.
Qed.

Lemma C6_witness :
  App.screen (App.app signed_in) = App.DashboardScreen sample_user /\
  exists w',
    App.step signed_in App.Logout = Some w' /\
    App.user (App.app w') = None /\
    App.token (App.session w') = None /\
    App.authorization (App.session w') = None /\
    App.currentLanguage (App.app w') = lit "ks".
Proof.
  split; [reflexivity|].
  apply (C6_logout_keeps_language signed_in sample_user). reflexivity.
Defined.

(** C8: when the page is loaded with a stored token, the token is
    attached and verified; if the verification fails the persisted token
    is removed, the authorization default is detached, there is no
    identity and the landing page is shown. *)
Theorem C8_verify_failure_clears_session (tok : jsstring) :
  truthy tok = true ->
  exists w1 w2,
    App.step (App.start (Some tok)) App.Mount = Some w1 /\
    App.verifying w1 = true /\
    App.authorization (App.session w1) = Some (App.bearer tok) /\
    App.step w1 App.VerifyRejected = Some w2 /\
    App.token (App.session w2) = None /\
    App.authorization (App.session w2) = None /\
    App.user (App.app w2) = None /\
    App.screen (App.app w2) = App.Landing.
Proof.
  intros Ht. unfold App.step, App.start, App.startup. simpl. rewrite Ht.
  eexists. eexists. split; [reflexivity|]. simpl.
  repeat split; reflexivity.
Qed.

Lemma C8_witness :
  truthy sample_token = true /\
  exists w1 w2,
    App.step (App.start (Some sample_token)) App.Mount = Some w1 /\
    App.verifying w1 = true /\
    App.authorization (App.session w1) = Some (App.bearer sample_token) /\
    App.step w1 App.VerifyRejected = Some w2 /\
    App.token (App.session w2) = None /\
    App.authorization (App.session w2) = None /\
    App.user (App.app w2) = None /\
    App.screen (App.app w2) = App.Landing.
Proof.
  split; [reflexivity|].
  apply (C8_verify_failure_clears_session sample_token). reflexivity.
Defined.

(** C9: after a successful verify, login or registration the identity is
    the one returned and the language is its preferred language, or "en"
    when it has none. *)
Theorem C9_language_from_identity (w w' : App.World) (u : App.UserIdentity) :
  (App.step w (App.VerifyFulfilled u) = Some w' \/
   exists isLogin tok, App.step w (App.AuthFulfilled isLogin tok u) = Some w') ->
  App.user (App.app w') = Some u /\
  App.currentLanguage (App.app w') =
    or_default (App.preferred_language u) (lit "en") /\
  (forall l, App.preferred_language u = Some l -> l <> [] ->
             App.currentLanguage (App.app w') = l) /\
  (App.preferred_language u = None ->
   App.currentLanguage (App.app w') = lit "en").
Proof.
  intros H.
  assert (Hw : App.user (App.app w') = Some u /\
               App.currentLanguage (App.app w') =
                 or_default (App.preferred_language u) (lit "en")).
  { destruct H as [H|[isLogin [tok H]]]; unfold App.step in H.
    - destruct (App.verifying w); [|discriminate].
      injection H as <-. split; reflexivity.
    - destruct (App.awaited isLogin (App.auth_requests w)); [|discriminate].
      injection H as <-. split; reflexivity. }
  destruct Hw as [Hu Hl]. split; [exact Hu|]. split; [exact Hl|]. split.
  - intros l E Hne. rewrite Hl, E. destruct l; [congruence|reflexivity].
  - intros E. rewrite Hl, E. reflexivity.
Qed.

Lemma C9_witness :
  (App.step verifying_world (App.VerifyFulfilled sample_user) =
     Some (App.mkWorld (App.session verifying_world)
             (App.mkComponent (Some sample_user) false None (lit "hi"))
             true false []) \/
   exists isLogin tok,
     App.step verifying_world (App.AuthFulfilled isLogin tok sample_user) =
     Some (App.mkWorld (App.session verifying_world)
             (App.mkComponent (Some sample_user) false None (lit "hi"))
             true false [])) /\
  App.currentLanguage (App.mkComponent (Some sample_user) false None (lit "hi"))
  = lit "hi".
Proof.
  split; [left; reflexivity|].
  apply (C9_language_from_identity verifying_world
           (App.mkWorld (App.session verifying_world)
              (App.mkComponent (Some sample_user) false None (lit "hi"))
              true false [])
           sample_user);
    [left; reflexivity | reflexivity | discriminate].
Defined.

(** * Further properties *)

(** ** Normalisation *)

(** X1: [normalize] invents no text: every entry of the result occurs in
    the raw string as a run of consecutive code units. *)
Theorem X1_entries_occur_in_input (raw : jsstring) :
  Forall (fun s => Norm.occurs_in s raw) (normalize raw).
Proof.
  apply Forall_forall. intros s H.
  unfold normalize in H. apply filter_In in H as [Hin _].
  apply in_map_iff in Hin as [seg [<- Hseg]].
  apply Norm.occurs_in_trans with (b := seg).
  - destruct (Norm.trim_occurs seg) as [p [q [E _]]]. now exists p, q.
  - now apply (Norm.split_occurs comma).
Qed.

(** X2: a normalised list written back as comma-separated text
    normalises to itself. *)
Theorem X2_normalize_join_round_trip (raw : jsstring) :
  normalize (join comma (normalize raw)) = normalize raw.
Proof.
  destruct (normalize raw) as [|a r] eqn:E; [reflexivity|].
  rewrite <- E. unfold normalize at 1.
  rewrite Norm.split_join.
  - apply Norm.normalize_fixed. intros s Hs.
    destruct (Norm.normalize_entry raw s Hs) as [H1 [H2 _]]. auto.
  - rewrite E. discriminate.
  - intros s Hs. now destruct (Norm.normalize_entry raw s Hs) as [_ [_ H]].
Qed.

(** X3: the normalised list is empty exactly when the raw string holds
    nothing but commas and white space. *)
Theorem X3_normalize_empty_iff (raw : jsstring) :
  normalize raw = [] <-> forallb Norm.is_filler raw = true.
Proof.
  unfold normalize. rewrite filter_map_trim, <- Norm.blank_segments.
  rewrite <- Norm.filter_nil_forallb. split.
  - intros H. now apply map_eq_nil in H.
  - intros ->. reflexivity.
Qed.

(** X4: the normalised list has at most one entry more than the raw
    string has commas. *)
Theorem X4_normalize_length (raw : jsstring) :
  (List.length (normalize raw) <= S (Norm.commas raw))%nat.
Proof.
  unfold normalize, Norm.commas.
  rewrite <- (Norm.split_length comma raw), <- (length_map trim (split comma raw)).
  apply filter_length_le.
Qed.

(** ** Dashboard *)

(** The user opens the recommendations tab while the data loads. *)
Definition browsing : list DashView.Event :=
  [DashView.Completes Dash.GetStats; DashView.Select Dash.career;
   DashView.Completes Dash.GetOpportunities;
   DashView.Completes Dash.GetScholarships].

(** X5: selecting tabs while the three requests are awaited changes
    nothing in what is loaded: the data is applied as a whole or not at
    all, as without any selection, and the active tab is the last one
    selected. *)
Theorem X5_tabs_do_not_disturb_loading (o : Dash.Outcomes)
  (evs : list DashView.Event) (c : Dash.Component) :
  Dash.each_once (DashView.fetches evs) = true ->
  DashView.dashboard o evs c =
  match Dash.stats_res o, Dash.scholarships_res o, Dash.opportunities_res o with
  | Some s, Some sc, Some op =>
      (Dash.mkComponent (DashView.last_tab evs (Dash.activeTab c)) s sc op, [])
  | _, _, _ =>
      (DashView.setActiveTab (DashView.last_tab evs (Dash.activeTab c)) c,
       [Dash.ConsoleError "Error fetching dashboard data:"])
  end.
Proof.
  intros H.
  pose proof (Dash.fetchDashboardData_all_or_nothing o _ c H) as L.
  unfold DashView.dashboard. rewrite DashView.run_completes.
  unfold Dash.fetchDashboardData in L.
  destruct (Dash.completes o (DashView.fetches evs) Dash.pending c)
    as [[p' c'] es].
  destruct (Dash.stats_res o), (Dash.scholarships_res o),
    (Dash.opportunities_res o); injection L as -> ->; reflexivity.
Qed.

Lemma X5_witness :
  Dash.each_once (DashView.fetches browsing) = true /\
  DashView.dashboard scholarships_fail browsing Dash.initial =
    (Dash.mkComponent Dash.career [] [] [],
     [Dash.ConsoleError "Error fetching dashboard data:"]).
Proof.
  split; [reflexivity|].
  exact (X5_tabs_do_not_disturb_loading scholarships_fail browsing
           Dash.initial eq_refl).
Defined.

(** X6: the overview shows three cards to a student and to a counselor
    and none to any other role, and before any statistics are loaded
    every card shows zero. *)
Theorem X6_overview_cards (role : jsstring) (s : Dash.Stats) :
  List.length (DashView.overviewCards role s) =
    (if JS.eqb role (lit "student") || JS.eqb role (lit "counselor")
     then 3 else 0)%nat /\
  forallb DashView.shows_zero (DashView.overviewCards role []) = true.
Proof.
  split; [apply DashView.overviewCards_length
         |apply DashView.overviewCards_unloaded].
Qed.

(** X7: when one of the three requests fails, every card of the overview
    shows zero, whatever the other two requests returned. *)
Theorem X7_failed_load_shows_zero (o : Dash.Outcomes)
  (order : list Dash.Fetch) (role : jsstring) :
  Dash.each_once order = true ->
  Dash.stats_res o = None \/ Dash.scholarships_res o = None \/
  Dash.opportunities_res o = None ->
  forallb DashView.shows_zero
    (DashView.overviewCards role
       (Dash.stats (fst (Dash.fetchDashboardData o order Dash.initial))))
  = true.
Proof.
  intros H Hf. rewrite (Dash.fetchDashboardData_all_or_nothing o order _ H).
  assert (E : match Dash.stats_res o, Dash.scholarships_res o,
                    Dash.opportunities_res o with
              | Some s, Some sc, Some op =>
                  (Dash.mkComponent (Dash.activeTab Dash.initial) s sc op, [])
              | _, _, _ =>
                  (Dash.initial,
                   [Dash.ConsoleError "Error fetching dashboard data:"])
              end
              = (Dash.initial,
                 [Dash.ConsoleError "Error fetching dashboard data:"])).
  { destruct Hf as [->|[E|E]]; [reflexivity| |]; rewrite E.
    - now destruct (Dash.stats_res o).
    - now destruct (Dash.stats_res o), (Dash.scholarships_res o). }
  rewrite E. simpl. apply DashView.overviewCards_unloaded.
Qed.

Lemma X7_witness :
  Dash.each_once stats_first = true /\
  (Dash.stats_res scholarships_fail = None \/
   Dash.scholarships_res scholarships_fail = None \/
   Dash.opportunities_res scholarships_fail = None) /\
  forallb DashView.shows_zero
    (DashView.overviewCards (lit "student")
       (Dash.stats (fst (Dash.fetchDashboardData scholarships_fail stats_first
                           Dash.initial))))
  = true.
Proof.
  split; [reflexivity|]. split; [right; left; reflexivity|].
  apply (X7_failed_load_shows_zero scholarships_fail stats_first
           (lit "student")); [reflexivity | right; left; reflexivity].
Defined.

(** ** Recommendation form *)

(** X8: in every reachable state of the recommendation form the submit
    button is disabled exactly while one request is in flight, and an
    answer, good or bad, enables it again. *)
Theorem X8_busy_exactly_while_in_flight (w : Reco.Instance) :
  Reco.reachable w ->
  (Reco.loading (Reco.ui w) = true <-> Reco.in_flight w = 1%nat) /\
  (Reco.loading (Reco.ui w) = false <-> Reco.in_flight w = 0%nat) /\
  (forall ev w' es,
     Reco.step w ev = Some (w', es) ->
     (exists recs, ev = Reco.Fulfilled recs) \/ ev = Reco.Rejected ->
     Reco.loading (Reco.ui w') = false /\ Reco.in_flight w' = 0%nat).
Proof.
  intros Hr. pose proof (Reco.busy_inv_reachable w Hr) as Hb.
  unfold Reco.busy_inv in Hb.
  split; [|split].
  - destruct (Reco.loading (Reco.ui w)); rewrite Hb; split; congruence.
  - destruct (Reco.loading (Reco.ui w)); rewrite Hb; split; congruence.
  - intros ev w' es Hs Hev.
    destruct w as [c n]. simpl in Hb.
    destruct Hev as [[recs ->]| ->]; simpl in Hs;
      (destruct n as [|n]; [discriminate|]); injection Hs as <- <-; simpl;
      (split; [reflexivity|]); destruct (Reco.loading c); congruence.
Qed.

Lemma X8_witness :
  Reco.reachable submitting /\
  (Reco.loading (Reco.ui submitting) = true <->
   Reco.in_flight submitting = 1%nat).
Proof.
  split; [exact submitting_reachable|].
  apply (X8_busy_exactly_while_in_flight submitting submitting_reachable).
Defined.

(** ** Authentication form *)

(** X9: the form posts exactly when the input passes the schema: the
    e-mail address passes zod's test and the password has at least 6 code
    units, and on registration the full name has at least 2, the role is
    one of the four roles and the preferred language is absent or one of
    the three codes; the phone number is not constrained.  It then posts
    one request, to the login or the registration path, with the parsed
    values. *)
Theorem X9_posts_iff_acceptable
  (is_email : jsstring -> bool) (required_error : string)
  (invalid_enum_error : list jsstring -> jsstring -> string)
  (isLogin : bool) (v : AuthForm.Values) (c : AuthForm.Component) :
  snd (AuthForm.handleSubmit is_email required_error invalid_enum_error
         isLogin v c) =
  if AuthFlow.acceptable is_email isLogin v
  then [AuthForm.Post (if isLogin then "/auth/login" else "/auth/register")
          (AuthForm.parsed (AuthForm.schema isLogin) v)]
  else [].
Proof.
  pose proof (AuthFlow.handleSubmit_cases is_email required_error
                invalid_enum_error isLogin v c) as H.
  unfold AuthFlow.handleSubmit in H. rewrite H.
  destruct (AuthFlow.acceptable is_email isLogin v); reflexivity.
Qed.

(** X10: a login request carries the e-mail address and the password and
    nothing else, whatever other values the form holds. *)
Theorem X10_login_body
  (is_email : jsstring -> bool) (required_error : string)
  (invalid_enum_error : list jsstring -> jsstring -> string)
  (v : AuthForm.Values) (c : AuthForm.Component) :
  Forall (fun e => e = AuthForm.Post "/auth/login"
                         (AuthForm.mkValues (AuthForm.v_email v)
                            (AuthForm.v_password v) None None None None))
    (snd (AuthForm.handleSubmit is_email required_error invalid_enum_error
            true v c)).
Proof.
  pose proof (AuthFlow.handleSubmit_cases is_email required_error
                invalid_enum_error true v c) as H.
  unfold AuthFlow.handleSubmit in H. rewrite H.
  destruct (AuthFlow.acceptable is_email true v); simpl.
  - constructor; [reflexivity|constructor].
  - constructor.
Qed.

(** X11: after a request that fails the form shows an error that is not
    empty: the detail sent by the server, or "An error occurred" when
    there is none or it is empty.  A submission that passes the schema
    removes the error; one that does not leaves it as it was. *)
Theorem X11_error_box
  (is_email : jsstring -> bool) (required_error : string)
  (invalid_enum_error : list jsstring -> jsstring -> string)
  (c : AuthForm.Component) :
  (forall detail,
     exists msg,
       AuthFlow.error_box (AuthFlow.onSubmit_rejected detail c) = Some msg /\
       msg <> [] /\
       (forall d, detail = Some d -> d <> [] -> msg = d) /\
       (detail = None \/ detail = Some [] -> msg = lit "An error occurred")) /\
  (forall isLogin v,
     AuthFlow.error_box
       (fst (AuthForm.handleSubmit is_email required_error invalid_enum_error
               isLogin v c)) =
     if AuthFlow.acceptable is_email isLogin v then None
     else AuthFlow.error_box c).
Proof.
  split.
  - intros detail. unfold AuthFlow.error_box, AuthFlow.onSubmit_rejected.
    simpl. destruct detail as [[|x d]|]; simpl.
    + eexists. split; [reflexivity|]. split; [discriminate|]. split.
      * intros d E Hne. injection E as <-. congruence.
      * reflexivity.
    + eexists. split; [reflexivity|]. split; [discriminate|]. split.
      * intros d' E _. now injection E as <-.
      * intros [E|E]; discriminate E.
    + eexists. split; [reflexivity|]. split; [discriminate|]. split.
      * intros d E. discriminate E.
      * reflexivity.
  - intros isLogin v.
    pose proof (AuthFlow.handleSubmit_cases is_email required_error
                  invalid_enum_error isLogin v c) as H.
    unfold AuthFlow.handleSubmit in H. rewrite H.
    destruct (AuthFlow.acceptable is_email isLogin v); reflexivity.
Qed.

Definition good_registration : AuthForm.Values :=
  AuthForm.mkValues (Some (lit "a@b.in")) (Some (lit "secret1"))
    (Some (lit "Asha")) (Some (lit "student")) (Some (lit ""))
    (Some (lit "en")).

(** An authentication form whose request has not been answered yet. *)
Definition registering : AuthFlow.Instance :=
  AuthFlow.mkInstance (AuthForm.mkComponent true (lit "") []) 1.

Lemma registering_reachable :
  AuthFlow.reachable has_at "Required" (fun _ _ => "Invalid enum value"%string)
    registering.
Proof.
  eapply AuthFlow.reach_step with (ev := AuthFlow.Submit false good_registration);
    [apply AuthFlow.reach_start | reflexivity].
Qed.

(** X12: an authentication form has at most one request in flight; its
    button is disabled exactly while the request is awaited, and a submit
    attempt made meanwhile changes nothing and posts nothing. *)
Theorem X12_one_auth_request_in_flight
  (is_email : jsstring -> bool) (required_error : string)
  (invalid_enum_error : list jsstring -> jsstring -> string)
  (w : AuthFlow.Instance) :
  AuthFlow.reachable is_email required_error invalid_enum_error w ->
  (AuthFlow.in_flight w <= 1)%nat /\
  (AuthForm.loading (AuthFlow.form w) = true <->
   AuthFlow.in_flight w = 1%nat) /\
  (AuthForm.loading (AuthFlow.form w) = true ->
   forall isLogin v,
     AuthFlow.step is_email required_error invalid_enum_error w
       (AuthFlow.Submit isLogin v) = Some (w, [])).
Proof.
  intros Hr.
  pose proof (AuthFlow.busy_reachable _ _ _ w Hr) as Hb.
  split; [|split].
  - destruct (AuthForm.loading (AuthFlow.form w)); lia.
  - destruct (AuthForm.loading (AuthFlow.form w)); rewrite Hb;
      split; congruence.
  - intros Hl isLogin v. destruct w as [c n]. simpl in *.
    unfold AuthFlow.submitButton. rewrite Hl. reflexivity.
Qed.

Lemma X12_witness :
  AuthFlow.reachable has_at "Required" (fun _ _ => "Invalid enum value"%string)
    registering /\
  (AuthFlow.in_flight registering <= 1)%nat /\
  AuthFlow.step has_at "Required" (fun _ _ => "Invalid enum value"%string)
    registering (AuthFlow.Submit false good_registration)
  = Some (registering, []).
Proof.
  split; [exact registering_reachable|]. split.
  - apply (X12_one_auth_request_in_flight _ _ _ registering
             registering_reachable).
  - apply (X12_one_auth_request_in_flight _ _ _ registering
             registering_reachable). reflexivity.
Defined.

(** ** Application *)

(** The login form is shown and its request has not been answered yet. *)
Definition logging_in : App.World :=
  App.mkWorld (App.mkSession None None)
    (App.mkComponent None false (Some true) (lit "en")) true false [true].

Lemma signed_in_reachable_ok : AppFacts.reachable_ok signed_in.
Proof.
  eapply AppFacts.ok_step with (ev := App.SelectLanguage (lit "ks"));
    [eapply AppFacts.ok_step with (ev := App.VerifyFulfilled sample_user);
       [eapply AppFacts.ok_step with (ev := App.Mount);
          [apply (AppFacts.ok_start (Some sample_token))
          | reflexivity | reflexivity]
       | reflexivity | reflexivity]
    | reflexivity | reflexivity].
Qed.

(** X13: when the storage holds no token, or holds the empty string, the
    start-up effect sends nothing: the landing page is shown at once, no
    authorization default is attached and the storage is left as it is. *)
Theorem X13_start_without_token (stored : option jsstring) :
  (forall tok, stored = Some tok -> tok = []) ->
  exists w1,
    App.step (App.start stored) App.Mount = Some w1 /\
    App.screen (App.app w1) = App.Landing /\
    App.verifying w1 = false /\
    App.authorization (App.session w1) = None /\
    App.token (App.session w1) = stored.
Proof.
  intros H. destruct stored as [tok|].
  - rewrite (H tok eq_refl). eexists. split; [reflexivity|].
    repeat split; reflexivity.
  - eexists. split; [reflexivity|]. repeat split; reflexivity.
Qed.

Lemma X13_witness :
  (forall tok, Some (lit "") = Some tok -> tok = []) /\
  exists w1,
    App.step (App.start (Some (lit ""))) App.Mount = Some w1 /\
    App.screen (App.app w1) = App.Landing /\
    App.verifying w1 = false /\
    App.authorization (App.session w1) = None /\
    App.token (App.session w1) = Some (lit "").
Proof.
  assert (H : forall tok : jsstring, Some (lit "") = Some tok -> tok = [])
    by (intros tok E; now injection E as <-).
  split; [exact H|].
  exact (X13_start_without_token (Some (lit "")) H).
Defined.

(** X14: the spinner is shown exactly before the start-up effect has run
    and while the stored token is verified, and once it is gone no event
    brings it back. *)
Theorem X14_spinner_only_at_start (w : App.World) :
  App.reachable w ->
  (App.loading (App.app w) = true <->
   App.mounted w = false \/ App.verifying w = true) /\
  (forall ev w',
     App.step w ev = Some w' ->
     App.loading (App.app w) = false -> App.loading (App.app w') = false).
Proof.
  intros Hr. destruct (App.Inv_reachable w Hr) as [I1 _ I3 _ _ _].
  split.
  - split; [now apply AppFacts.loading_cases|].
    intros [Hm|Hv]; [now destruct (I1 Hm) as [_ [_ ?]]|now destruct (I3 Hv)].
  - intros ev w'. apply AppFacts.loading_stays_false.
Qed.

Lemma X14_witness :
  App.reachable verifying_world /\
  (App.loading (App.app verifying_world) = true <->
   App.mounted verifying_world = false \/ App.verifying verifying_world = true).
Proof.
  split; [exact verifying_world_reachable|].
  apply (X14_spinner_only_at_start verifying_world verifying_world_reachable).
Defined.

(** X15: in every reachable state, a successful verification, login or
    registration shows the dashboard of the identity returned, and a
    failed verification or a logout shows the landing page. *)
Theorem X15_screen_after_answer (w : App.World) :
  App.reachable w ->
  (forall u w', App.step w (App.VerifyFulfilled u) = Some w' ->
                App.screen (App.app w') = App.DashboardScreen u) /\
  (forall isLogin tok u w',
     App.step w (App.AuthFulfilled isLogin tok u) = Some w' ->
     App.screen (App.app w') = App.DashboardScreen u) /\
  (forall w', App.step w App.VerifyRejected = Some w' ->
              App.screen (App.app w') = App.Landing) /\
  (forall w', App.step w App.Logout = Some w' ->
              App.screen (App.app w') = App.Landing).
Proof.
  intros Hr. destruct (App.Inv_reachable w Hr) as [_ I2 I3 _ _ _].
  pose proof (AppFacts.loading_authMode w Hr) as Ha.
  destruct w as [[tk au] [u0 ld am cl] m v rq]. simpl in *.
  split; [|split; [|split]].
  - intros u w' Hs. cbn in Hs. destruct v; [|discriminate].
    now injection Hs as <-.
  - intros isLogin tok u w' Hs. cbn in Hs.
    destruct (App.awaited isLogin rq) eqn:E; [|discriminate].
    injection Hs as <-. apply App.awaited_nonempty in E.
    destruct ld; [now destruct (I2 eq_refl)|reflexivity].
  - intros w' Hs. cbn in Hs. destruct v; [|discriminate].
    injection Hs as <-. destruct (I3 eq_refl) as [-> _].
    destruct (I2 eq_refl) as [-> _]. now rewrite (Ha eq_refl).
  - intros w' Hs. cbn in Hs.
    destruct (App.screen _) eqn:E; try discriminate.
    injection Hs as <-. apply App.screen_dashboard in E as [E _].
    simpl in E. now subst.
Qed.

Lemma X15_witness :
  App.reachable signed_in /\
  (forall w', App.step signed_in App.Logout = Some w' ->
              App.screen (App.app w') = App.Landing).
Proof.
  split; [exact signed_in_reachable|].
  apply (X15_screen_after_answer signed_in signed_in_reachable).
Defined.

(** X16: after a login or registration that returned a non-empty token,
    loading the page again with what the storage then holds attaches the
    same authorization default and verifies it; if the verification
    returns the identity, the session is the one the login left. *)
Theorem X16_reload_restores_session (w w' : App.World) (isLogin : bool)
  (tok : jsstring) (u : App.UserIdentity) :
  App.step w (App.AuthFulfilled isLogin tok u) = Some w' ->
  truthy tok = true ->
  exists w1 w2,
    App.step (App.start (App.token (App.session w'))) App.Mount = Some w1 /\
    App.session w1 = App.session w' /\
    App.verifying w1 = true /\
    App.step w1 (App.VerifyFulfilled u) = Some w2 /\
    App.session w2 = App.session w' /\
    App.user (App.app w2) = App.user (App.app w').
Proof.
  intros Hs Ht. unfold App.step in Hs.
  destruct (App.awaited isLogin (App.auth_requests w)); [|discriminate].
  injection Hs as <-. simpl.
  unfold App.step, App.start, App.startup. simpl. rewrite Ht.
  eexists. eexists. split; [reflexivity|]. simpl.
  repeat split; reflexivity.
Qed.

Lemma X16_witness :
  App.step logging_in (App.AuthFulfilled true sample_token sample_user) =
    Some (App.mkWorld
            (App.mkSession (Some sample_token) (Some (App.bearer sample_token)))
            (App.mkComponent (Some sample_user) false None (lit "hi"))
            true false []) /\
  truthy sample_token = true /\
  exists w1 w2,
    App.step (App.start (Some sample_token)) App.Mount = Some w1 /\
    App.session w1 =
      App.mkSession (Some sample_token) (Some (App.bearer sample_token)) /\
    App.verifying w1 = true /\
    App.step w1 (App.VerifyFulfilled sample_user) = Some w2 /\
    App.session w2 =
      App.mkSession (Some sample_token) (Some (App.bearer sample_token)) /\
    App.user (App.app w2) = Some sample_user.
Proof.
  split; [reflexivity|]. split; [reflexivity|].
  exact (X16_reload_restores_session logging_in _ true sample_token sample_user
           eq_refl eq_refl).
Defined.

(** ** Translations *)

(** X17: when every identity that the server returns has no preferred
    language or one of the three codes, the active language is always one
    for which [t] is defined, and [t] gives a text that is not empty for
    every key that the components use. *)
Theorem X17_t_never_fails (w : App.World) :
  AppFacts.reachable_ok w ->
  Forall (fun key =>
            exists s, I18n.t (App.currentLanguage (App.app w)) key = Some s /\
                      s <> [])
    I18n.keys_used.
Proof.
  intros Hr. apply Forall_forall. intros key Hk.
  pose proof (AppFacts.language_reachable w Hr) as Hl.
  apply I18n.existsb_eqb_In in Hl.
  pose proof AppFacts.all_translated as Ht.
  rewrite forallb_forall in Ht. specialize (Ht _ Hl).
  rewrite forallb_forall in Ht. specialize (Ht _ Hk).
  unfold AppFacts.translated in Ht.
  destruct (I18n.t (App.currentLanguage (App.app w)) key) as [s|];
    [|discriminate].
  exists s. split; [reflexivity|]. now destruct s.
Qed.

Lemma X17_witness :
  AppFacts.reachable_ok signed_in /\
  Forall (fun key =>
            exists s, I18n.t (lit "ks") key = Some s /\ s <> [])
    I18n.keys_used.
Proof.
  split; [exact signed_in_reachable_ok|].
  exact (X17_t_never_fails signed_in signed_in_reachable_ok).
Defined.

(** X18: the three languages of [translations] define the same keys, and
    of the keys that the components use every one has a text in each
    language, except [optional], which no language defines and which [t]
    gives back as it is. *)
Theorem X18_translation_coverage :
  Forall (fun lang =>
            exists table,
              I18n.property lang I18n.translations = Some table /\
              map fst table = map fst I18n.translations_en /\
              Forall (fun key =>
                        if JS.eqb key (lit "optional")
                        then I18n.property key table = None /\
                             I18n.t lang key = Some key
                        else exists s,
                               I18n.property key table = Some s /\
                               s <> [] /\ I18n.t lang key = Some s)
                I18n.keys_used)
    App.language_codes.
Proof.
  repeat (apply Forall_cons || apply Forall_nil);
    (eexists; split; [reflexivity|]; split; [reflexivity|]);
    repeat (apply Forall_cons || apply Forall_nil);
    cbn [JS.eqb];
    first [ split; reflexivity
          | eexists; split; [reflexivity|]; split;
            [discriminate|reflexivity] ].
Qed.
